(** * Bitfield evaluation: [ASTNodeBitfield::createPatterns]

    A shallow embedding of [lib/include/pl/core/ast/ast_node_bitfield.hpp].
    The evaluator is an explicit state, the member functions of the node are
    computations in a state-and-exception monad (an exception keeps the state
    reached when it was thrown, as C++ unwinding does), and the polymorphic
    children of the node (field declarations, attribute arguments) are records
    of their virtual methods. *)

From Stdlib Require Import NArith List String Bool Lia DecimalString.
Import ListNotations.

Local Open Scope N_scope.

(** ** Errors *)

(** AST nodes are identified by a number standing for their address; an error
    cites the node it was raised for. *)
Definition NodeId := N.

Record Error := mkError {
  errCode : nat;
  errMessage : string;
  errNode : NodeId
}.

(** [err::E0005] (size error) and [err::E0008] (attribute error). *)
Definition E0005 : nat := 5%nat.
Definition E0008 : nat := 8%nat.

(** [fmt::format("{}", n)] for an unsigned number. *)
Definition fmt (n : N) : string := NilZero.string_of_uint (N.to_uint n).

(** ** Patterns *)

Inductive Endian := little | big.

Definition Endian_eqb (a b : Endian) : bool :=
  match a, b with
  | little, little | big, big => true
  | _, _ => false
  end.

(** Modelled from the spec: the bit cursor [(byteOffset, bitOffset)], the
    struct returned by [getBitwiseReadOffset]; its declaration is not part of
    the translated file. The byte offset is an unsigned integer and the bit
    offset stays in [0,7]. *)
Record ByteAndBitOffset := mkOffset {
  byteOffset : N;
  bitOffset : N
}.

(** The byte offset is an unsigned 64-bit integer, the width of the addresses
    of the data: arithmetic on offsets, and what is stored in a variable of
    that type, is taken modulo [2^64]. *)
Definition u64 (x : N) : N := x mod 2 ^ 64.

(** The raw pointer [bitfieldPattern.get()] handed to members and to the
    scope is a handle on the pattern under construction; the handle used is
    the position the pattern was created at. *)
Definition PatternRef := ByteAndBitOffset.

(** Modelled from the spec: a bitfield pattern (section 3): its starting
    position, bit size, section identifier, reversed-flag, endianness and
    members, and its own parent when it is nested. The class is declared in
    [pl/patterns/pattern_bitfield.hpp]. *)
Record PatternBitfieldData (P : Type) := mkBitfield {
  bf_offset : ByteAndBitOffset;
  bf_bitSize : N;
  bf_section : N;
  bf_reversed : bool;
  bf_endian : Endian;
  bf_fields : list P;
  bf_parent : option PatternRef
}.
Arguments mkBitfield {P}.
Arguments bf_offset {P}.
Arguments bf_bitSize {P}.
Arguments bf_section {P}.
Arguments bf_reversed {P}.
Arguments bf_endian {P}.
Arguments bf_fields {P}.
Arguments bf_parent {P}.

(** Modelled from the spec: the patterns a field can produce. A bitfield
    field and a nested bitfield are bitfield members (the [dynamic_cast] to
    [PatternBitfieldMember] succeeds on them); a field may be tagged padding;
    any other pattern is not a member. *)
#[local] Set Warnings "-register-all".
Inductive Pattern : Type :=
| PatternBitfieldField (name : string) (bitSize : N) (padding : bool)
                       (parent : option PatternRef)
| PatternBitfield (data : PatternBitfieldData Pattern)
| PatternOther (name : string).

Definition Bitfield := PatternBitfieldData Pattern.

(** Modelled from the spec: whether a pattern is classified as a bitfield
    member, [dynamic_cast<ptrn::PatternBitfieldMember*>(pattern.get()) != nullptr]. *)
Definition isBitfieldMember (p : Pattern) : bool :=
  match p with
  | PatternBitfieldField _ _ _ _ => true
  | PatternBitfield _ => true
  | PatternOther _ => false
  end.

(** Modelled from the spec: the padding query of a member,
    [bitfieldMember->isPadding()]. *)
Definition isPadding (p : Pattern) : bool :=
  match p with
  | PatternBitfieldField _ _ padding _ => padding
  | _ => false
  end.

(** Modelled from the spec: the parent back-reference setter of a member,
    [bitfieldMember->setParentBitfield(parent)]. *)
Definition setParentBitfield (parent : PatternRef) (p : Pattern) : Pattern :=
  match p with
  | PatternBitfieldField name bits padding _ =>
      PatternBitfieldField name bits padding (Some parent)
  | PatternBitfield d =>
      PatternBitfield (mkBitfield (bf_offset d) (bf_bitSize d) (bf_section d)
                         (bf_reversed d) (bf_endian d) (bf_fields d)
                         (Some parent))
  | PatternOther name => PatternOther name
  end.

(** Modelled from the spec: a fresh bitfield pattern,
    [std::make_shared<ptrn::PatternBitfield>(evaluator, byteOffset, bitOffset, bitSize)]:
    it starts at the given position with no member, and its endianness is the
    evaluator's. *)
Definition newPatternBitfield (position : ByteAndBitOffset) (endian : Endian)
    (bitSize : N) : Bitfield :=
  mkBitfield position bitSize 0 false endian [] None.

(** Modelled from the spec: the setters of a bitfield pattern for its section
    identifier, bit size, reversed-flag and member list, and its endianness. *)
Definition setSection (section : N) (b : Bitfield) : Bitfield :=
  mkBitfield (bf_offset b) (bf_bitSize b) section (bf_reversed b)
    (bf_endian b) (bf_fields b) (bf_parent b).

Definition setBitSize (bitSize : N) (b : Bitfield) : Bitfield :=
  mkBitfield (bf_offset b) bitSize (bf_section b) (bf_reversed b)
    (bf_endian b) (bf_fields b) (bf_parent b).

Definition setReversed (reversed : bool) (b : Bitfield) : Bitfield :=
  mkBitfield (bf_offset b) (bf_bitSize b) (bf_section b) reversed
    (bf_endian b) (bf_fields b) (bf_parent b).

Definition setFields (fields : list Pattern) (b : Bitfield) : Bitfield :=
  mkBitfield (bf_offset b) (bf_bitSize b) (bf_section b) (bf_reversed b)
    (bf_endian b) fields (bf_parent b).

Definition getEndian (b : Bitfield) : Endian := bf_endian b.

(** ** The evaluator *)

(** Modelled from the spec: the early-exit signal
    ([ControlFlowStatement::None], [Continue], [Break], [Return]). *)
Inductive ControlFlowStatement := CFNone | CFContinue | CFBreak | CFReturn.

Definition ControlFlowStatement_eqb (a b : ControlFlowStatement) : bool :=
  match a, b with
  | CFNone, CFNone | CFContinue, CFContinue
  | CFBreak, CFBreak | CFReturn, CFReturn => true
  | _, _ => false
  end.

(** Modelled from the spec: an evaluation scope, bound to the pattern under
    construction. The collector it is opened with is the local
    [potentialPatterns] of the call that opens it: a child reaches the
    evaluator only, and its patterns enter the collector by being returned. *)
Record Scope := mkScope {
  scopeParent : PatternRef
}.

(** Modelled from the spec: the evaluator surface of section 6: the bit
    cursor, the global reversed-flag, the section identifier, the stack of
    evaluation scopes, the array/loop context, the pending early-exit signal
    and the log of the progress hook. The default endianness is what a fresh
    pattern takes as its endianness. The class itself is not part of the
    translated file. *)
Record Evaluator := mkEvaluator {
  m_currOffset : ByteAndBitOffset;
  m_readOrderReversed : bool;
  m_defaultEndian : Endian;
  m_sectionId : N;
  m_scopes : list Scope;
  m_currArrayIndex : option N;
  m_currControlFlowStatement : ControlFlowStatement;
  m_runtime : list NodeId
}.

(** ** The evaluation monad *)

Inductive Outcome (A : Type) : Type :=
| Normal (a : A)
| Thrown (e : Error).
Arguments Normal {A}.
Arguments Thrown {A}.

Definition M (A : Type) : Type := Evaluator -> Outcome A * Evaluator.

Definition ret {A} (a : A) : M A := fun ev => (Normal a, ev).

Definition bind {A B} (m : M A) (f : A -> M B) : M B :=
  fun ev =>
    match m ev with
    | (Normal a, ev') => f a ev'
    | (Thrown e, ev') => (Thrown e, ev')
    end.

(** [err::Exxxx.throwError(message, {}, node)] *)
Definition throwError {A} (code : nat) (message : string) (node : NodeId) : M A :=
  fun ev => (Thrown (mkError code message node), ev).

(** [ON_SCOPE_EXIT { cleanup }]: the cleanup runs when the guarded block is
    left, by a return or by an exception. *)
Definition onScopeExit {A} (cleanup : Evaluator -> Evaluator) (body : M A) : M A :=
  fun ev => let (r, ev') := body ev in (r, cleanup ev').

(** A getter and a setter of the evaluator as computations. *)
Definition gets {A} (f : Evaluator -> A) : M A := fun ev => (Normal (f ev), ev).
Definition modify (f : Evaluator -> Evaluator) : M unit := fun ev => (Normal tt, f ev).

Declare Scope eval_scope.
Delimit Scope eval_scope with eval.
Notation "x <- m ;; k" := (bind m (fun x => k))
  (at level 61, m at next level, right associativity) : eval_scope.
Notation "' p <- m ;; k" := (bind m (fun x => let p := x in k))
  (at level 61, p pattern, m at next level, right associativity) : eval_scope.
Notation "m ;; k" := (bind m (fun _ => k))
  (at level 61, right associativity) : eval_scope.
Local Open Scope eval_scope.

(** ** Evaluator member functions *)

(** Modelled from the spec: the getter and the setter of the bit cursor. *)
Definition getBitwiseReadOffset (ev : Evaluator) : ByteAndBitOffset := m_currOffset ev.

Definition setBitwiseReadOffset (pos : ByteAndBitOffset) (ev : Evaluator) : Evaluator :=
  mkEvaluator pos (m_readOrderReversed ev) (m_defaultEndian ev) (m_sectionId ev)
    (m_scopes ev) (m_currArrayIndex ev) (m_currControlFlowStatement ev) (m_runtime ev).

(** Modelled from the spec: the getter and the setter of the global
    reversed-flag. *)
Definition readOrderIsReversed (ev : Evaluator) : bool := m_readOrderReversed ev.

Definition setReadOrderReversed (reversed : bool) (ev : Evaluator) : Evaluator :=
  mkEvaluator (m_currOffset ev) reversed (m_defaultEndian ev) (m_sectionId ev)
    (m_scopes ev) (m_currArrayIndex ev) (m_currControlFlowStatement ev) (m_runtime ev).

(** Modelled from the spec: the section identifier. *)
Definition getSectionId (ev : Evaluator) : N := m_sectionId ev.

(** Modelled from the spec: whether the evaluation is inside an array or
    loop, and if so at which index. *)
Definition getCurrentArrayIndex (ev : Evaluator) : option N := m_currArrayIndex ev.

(** Modelled from the spec: the getter and the setter of the pending
    early-exit signal. *)
Definition getCurrentControlFlowStatement (ev : Evaluator) : ControlFlowStatement :=
  m_currControlFlowStatement ev.

Definition setCurrentControlFlowStatement (cf : ControlFlowStatement) (ev : Evaluator)
    : Evaluator :=
  mkEvaluator (m_currOffset ev) (m_readOrderReversed ev) (m_defaultEndian ev)
    (m_sectionId ev) (m_scopes ev) (m_currArrayIndex ev) cf (m_runtime ev).

(** Modelled from the spec: opening and closing an evaluation scope. *)
Definition pushScope (parent : PatternRef) (ev : Evaluator) : Evaluator :=
  mkEvaluator (m_currOffset ev) (m_readOrderReversed ev) (m_defaultEndian ev)
    (m_sectionId ev) (mkScope parent :: m_scopes ev) (m_currArrayIndex ev)
    (m_currControlFlowStatement ev) (m_runtime ev).

Definition popScope (ev : Evaluator) : Evaluator :=
  mkEvaluator (m_currOffset ev) (m_readOrderReversed ev) (m_defaultEndian ev)
    (m_sectionId ev) (tl (m_scopes ev)) (m_currArrayIndex ev)
    (m_currControlFlowStatement ev) (m_runtime ev).

(** Modelled from the spec: the progress hook, invoked once per evaluation;
    the node being evaluated is logged. *)
Definition updateRuntime (node : NodeId) (ev : Evaluator) : Evaluator :=
  mkEvaluator (m_currOffset ev) (m_readOrderReversed ev) (m_defaultEndian ev)
    (m_sectionId ev) (m_scopes ev) (m_currArrayIndex ev)
    (m_currControlFlowStatement ev) (node :: m_runtime ev).

(** Modelled from the spec: "advance the cursor by the declared size", with
    the bit offset normalised into [0,7] and the byte offset absorbing the
    overflow (section 3). *)
Definition advance (pos : ByteAndBitOffset) (bits : N) : ByteAndBitOffset :=
  let total := byteOffset pos * 8 + bitOffset pos + bits in
  mkOffset (total / 8) (total mod 8).

(** Modelled from the spec: [getBitwiseReadOffsetAndIncrement(bitSize)]
    returns the cursor and advances it by [bitSize] bits. *)
Definition getBitwiseReadOffsetAndIncrement (bitSize : N) : M ByteAndBitOffset :=
  fun ev => (Normal (getBitwiseReadOffset ev),
             setBitwiseReadOffset (advance (getBitwiseReadOffset ev) bitSize) ev).

(** ** AST nodes *)

(** Modelled from the spec: a literal value, convertible to an unsigned
    integer: [getValue().toUnsigned()], a [u128]. *)
Record Literal := mkLiteral {
  toUnsigned : N
}.

(** Modelled from the spec: what [argument->evaluate(evaluator)] yields, seen
    through [dynamic_cast<ASTNodeLiteral *>]: a literal node, or a node that
    is no literal (a void or absent result). *)
Inductive EvaluatedNode :=
| ASTNodeLiteral (value : Literal)
| ASTNodeVoid.

(** A child node, as the record of the virtual methods the function calls on
    it: [createPatterns] on a field declaration and [evaluate] on an attribute
    argument. Both run against the evaluator and may throw. *)
Record ASTNode := mkASTNode {
  node_id : NodeId;
  node_createPatterns : M (list Pattern);
  node_evaluate : M EvaluatedNode
}.

(** Modelled from the spec: an attribute, a name ([getAttribute()]) with an
    ordered list of argument expressions ([getArguments()]). *)
Record ASTNodeAttribute := mkAttribute {
  attr_id : NodeId;
  getAttribute : string;
  getArguments : list ASTNode
}.

(** [ASTNodeBitfield]: an [Attributable] node owning its entries. *)
Record ASTNodeBitfield := mkASTNodeBitfield {
  bitfield_id : NodeId;
  m_attributes : list ASTNodeAttribute;
  m_entries : list ASTNode
}.

Definition getEntries (self : ASTNodeBitfield) : list ASTNode := m_entries self.

(** Modelled from the spec: attribute lookup by name, yielding the first
    attribute of that name if there is one ([Attributable] is not part of the
    translated file). *)
Definition getAttributeByName (name : string) (self : ASTNodeBitfield)
    : option ASTNodeAttribute :=
  find (fun a => String.eqb (getAttribute a) name) (m_attributes self).

Inductive BitfieldOrder := MostToLeastSignificant | LeastToMostSignificant.

(** [std::to_underlying] *)
Definition to_underlying (o : BitfieldOrder) : N :=
  match o with
  | MostToLeastSignificant => 0
  | LeastToMostSignificant => 1
  end.

Definition BitfieldOrder_eqb (a b : BitfieldOrder) : bool :=
  to_underlying a =? to_underlying b.

(** ** [ASTNodeBitfield::createPatterns] *)

Local Open Scope string_scope.
Local Open Scope N_scope.
Local Open Scope eval_scope.

(** Lines 46-50: the deprecated attribute, [left_to_right] first. *)
Definition badAttribute (self : ASTNodeBitfield) : option ASTNodeAttribute :=
  match getAttributeByName "left_to_right" self with
  | Some ltrAttribute => Some ltrAttribute
  | None => getAttributeByName "right_to_left" self
  end.

(** Lines 64-77: the direction argument. *)
Definition orderOf (directionNode : EvaluatedNode) (argument0 : ASTNode)
    : M BitfieldOrder :=
  match directionNode with
  | ASTNodeLiteral literalNode =>
      let value := toUnsigned literalNode in
      if value =? to_underlying MostToLeastSignificant then
        ret MostToLeastSignificant
      else if value =? to_underlying LeastToMostSignificant then
        ret LeastToMostSignificant
      else
        throwError E0008 ("Invalid BitfieldOrder value " ++ fmt value ++ ".")
          (node_id argument0)
  | ASTNodeVoid =>
      throwError E0008
        "The 'direction' parameter for attribute 'bitfield_order' must not be void."
        (node_id argument0)
  end.

(** Lines 78-86: the size argument. *)
Definition sizeOf (sizeNode : EvaluatedNode) (argument1 : ASTNode) : M N :=
  match sizeNode with
  | ASTNodeLiteral literalNode =>
      let value := toUnsigned literalNode in
      if value =? 0 then
        throwError E0008 "Fixed size of a bitfield must be greater than zero."
          (node_id argument1)
      else ret value
  | ASTNodeVoid =>
      throwError E0008
        "The 'size' parameter for attribute 'bitfield_order' must not be void."
        (node_id argument1)
  end.

(** Lines 88-89. *)
Definition shouldBeReversed (order : BitfieldOrder) (endian : Endian) : bool :=
  (BitfieldOrder_eqb order MostToLeastSignificant && Endian_eqb endian little)
  || (BitfieldOrder_eqb order LeastToMostSignificant && Endian_eqb endian big).

(** Lines 56-97, the body of [if (orderAttribute != nullptr)]: yields
    [(reversedChanged, fixedSize)]. *)
Definition applyOrderAttribute (orderAttribute : ASTNodeAttribute)
    (bitfieldPattern : Bitfield) (prevReversed : bool) : M (bool * N) :=
  match getArguments orderAttribute with
  | [argument0; argument1] =>
      directionNode <- node_evaluate argument0 ;;
      sizeNode <- node_evaluate argument1 ;;
      order <- orderOf directionNode argument0 ;;
      size <- sizeOf sizeNode argument1 ;;
      let reversed := shouldBeReversed order (getEndian bitfieldPattern) in
      if negb (Bool.eqb prevReversed reversed) then
        getBitwiseReadOffsetAndIncrement size ;;
        modify (setReadOrderReversed reversed) ;;
        ret (true, size)
      else
        ret (false, size)
  | arguments =>
      throwError E0008
        ("Attribute 'bitfield_order' expected 2 parameters, received "
           ++ fmt (N.of_nat (List.length arguments)) ++ ".")
        (attr_id orderAttribute)
  end.

(** Lines 110-112: the distance in bits between two cursor positions, in the
    64-bit arithmetic of the offsets. *)
Definition totalBitSize (initialPosition endPosition : ByteAndBitOffset) : N :=
  let startOffset :=
    u64 (byteOffset initialPosition * 8 + bitOffset initialPosition) in
  let endOffset := u64 (byteOffset endPosition * 8 + bitOffset endPosition) in
  if endOffset <? startOffset then startOffset - endOffset
  else endOffset - startOffset.

(** Lines 108-119: the [setSize] lambda. The local [totalBitSize] has the
    type of the offsets: the [u128] fixed size is compared with it as it is,
    and assigned to it, on line 116, narrowed to 64 bits. *)
Definition setSize (fixedSize : N) (initialPosition : ByteAndBitOffset)
    (bitfieldPattern : Bitfield) (node : ASTNode) : M Bitfield :=
  endPosition <- gets getBitwiseReadOffset ;;
  let total := totalBitSize initialPosition endPosition in
  if 0 <? fixedSize then
    if fixedSize <? total then
      throwError E0005 "Bitfield's fields exceeded the attribute-allotted size."
        (node_id node)
    else ret (setBitSize (u64 fixedSize) bitfieldPattern)
  else ret (setBitSize total bitfieldPattern).

(** Lines 121-138: the loop over the entries, from the entry it stands at.
    It yields the pattern and [potentialPatterns] as the loop leaves them. *)
Fixpoint fieldLoop (fixedSize : N) (initialPosition : ByteAndBitOffset)
    (entries : list ASTNode) (bitfieldPattern : Bitfield)
    (potentialPatterns : list Pattern) : M (Bitfield * list Pattern) :=
  match entries with
  | [] => ret (bitfieldPattern, potentialPatterns)
  | entry :: rest =>
      patterns <- node_createPatterns entry ;;
      bitfieldPattern <- setSize fixedSize initialPosition bitfieldPattern entry ;;
      let potentialPatterns := (potentialPatterns ++ patterns)%list in
      arrayIndex <- gets getCurrentArrayIndex ;;
      match arrayIndex with
      | None =>
          statement <- gets getCurrentControlFlowStatement ;;
          match statement with
          | CFReturn => ret (bitfieldPattern, potentialPatterns)
          | CFBreak =>
              modify (setCurrentControlFlowStatement CFNone) ;;
              ret (bitfieldPattern, potentialPatterns)
          | CFContinue =>
              modify (setCurrentControlFlowStatement CFNone) ;;
              ret (bitfieldPattern, [])
          | CFNone =>
              fieldLoop fixedSize initialPosition rest bitfieldPattern potentialPatterns
          end
      | Some _ =>
          fieldLoop fixedSize initialPosition rest bitfieldPattern potentialPatterns
      end
  end.

(** Lines 140-148: the visible members. Every bitfield member gets its parent
    set; a padding member is left out. *)
Fixpoint visibleFields (parent : PatternRef) (potentialPatterns : list Pattern)
    : list Pattern :=
  match potentialPatterns with
  | [] => []
  | pattern :: rest =>
      if isBitfieldMember pattern then
        let bitfieldMember := setParentBitfield parent pattern in
        if negb (isPadding bitfieldMember) then
          bitfieldMember :: visibleFields parent rest
        else visibleFields parent rest
      else pattern :: visibleFields parent rest
  end.

Section CreatePatterns.

(** [applyTypeAttributes(evaluator, node, pattern)], the attribute pipeline
    shared by all type nodes; it is declared in another header and taken as
    a parameter. It may change the pattern and the evaluator and may throw. *)
Variable applyTypeAttributes : ASTNodeBitfield -> Bitfield -> M Bitfield.

(** Lines 107-159: what runs under the scope guard. *)
Definition evaluateFields (self : ASTNodeBitfield) (bitfieldPattern : Bitfield)
    (prevReversed reversedChanged : bool) (fixedSize : N) : M (list Pattern) :=
  initialPosition <- gets getBitwiseReadOffset ;;
  '(bitfieldPattern, potentialPatterns) <-
    fieldLoop fixedSize initialPosition (m_entries self) bitfieldPattern [] ;;
  let fields := visibleFields (bf_offset bitfieldPattern) potentialPatterns in
  reversed <- gets readOrderIsReversed ;;
  let bitfieldPattern := setReversed reversed bitfieldPattern in
  (if reversedChanged then modify (setBitwiseReadOffset initialPosition)
   else ret tt) ;;
  let bitfieldPattern := setFields fields bitfieldPattern in
  bitfieldPattern <- applyTypeAttributes self bitfieldPattern ;;
  modify (setReadOrderReversed prevReversed) ;;
  ret [PatternBitfield bitfieldPattern].

(** Lines 34-97: everything before the scope is opened. It yields the
    fresh pattern, [prevReversed], [reversedChanged] and [fixedSize]. *)
Definition resolveOrder (self : ASTNodeBitfield) : M (Bitfield * bool * bool * N) :=
  modify (updateRuntime (bitfield_id self)) ;;
  position <- gets getBitwiseReadOffset ;;
  endian <- gets m_defaultEndian ;;
  let bitfieldPattern := newPatternBitfield position endian 0 in
  section <- gets getSectionId ;;
  let bitfieldPattern := setSection section bitfieldPattern in
  prevReversed <- gets readOrderIsReversed ;;
  match badAttribute self with
  | Some bad =>
      throwError E0008
        ("Attribute '" ++ getAttribute bad ++ "' is no longer supported.")
        (attr_id bad)
  | None => ret tt
  end ;;
  '(reversedChanged, fixedSize) <-
    match getAttributeByName "bitfield_order" self with
    | Some orderAttribute =>
        applyOrderAttribute orderAttribute bitfieldPattern prevReversed
    | None => ret (false, 0)
    end ;;
  ret (bitfieldPattern, prevReversed, reversedChanged, fixedSize).

(** Lines 33-160. *)
Definition createPatterns (self : ASTNodeBitfield) : M (list Pattern) :=
  '(bitfieldPattern, prevReversed, reversedChanged, fixedSize) <- resolveOrder self ;;
  modify (pushScope (bf_offset bitfieldPattern)) ;;
  onScopeExit popScope
    (evaluateFields self bitfieldPattern prevReversed reversedChanged fixedSize).

End CreatePatterns.

(** ** Sample declarations

    Concrete children used to run the function: their classes live in other
    headers. *)

Definition retreat (pos : ByteAndBitOffset) (bits : N) : ByteAndBitOffset :=
  let total := byteOffset pos * 8 + bitOffset pos - bits in
  mkOffset (total / 8) (total mod 8).

(** Modelled from the spec: a field declaration [bits] bits wide. It moves the
    cursor by its width, backwards when the read order is reversed, and yields
    one member pattern, tagged padding or not. *)
Definition fieldDecl (id : NodeId) (name : string) (bits : N) (padding : bool)
    : ASTNode :=
  mkASTNode id
    (fun ev =>
       let pos := getBitwiseReadOffset ev in
       let next := if readOrderIsReversed ev then retreat pos bits
                   else advance pos bits in
       (Normal [PatternBitfieldField name bits padding None],
        setBitwiseReadOffset next ev))
    (ret ASTNodeVoid).

(** Modelled from the spec: a statement raising an early-exit signal; it
    yields no pattern. *)
Definition controlFlowDecl (id : NodeId) (statement : ControlFlowStatement)
    : ASTNode :=
  mkASTNode id
    (modify (setCurrentControlFlowStatement statement) ;; ret [])
    (ret ASTNodeVoid).

(** An attribute argument evaluating to the literal [value], and one
    evaluating to no literal. *)
Definition literalExpr (id : NodeId) (value : N) : ASTNode :=
  mkASTNode id (ret []) (ret (ASTNodeLiteral (mkLiteral value))).

Definition voidExpr (id : NodeId) : ASTNode :=
  mkASTNode id (ret []) (ret ASTNodeVoid).

(** An attribute pipeline with nothing to apply. *)
Definition noTypeAttributes (self : ASTNodeBitfield) (pattern : Bitfield)
    : M Bitfield :=
  ret pattern.

(** An evaluator at the start of the data, reading little-endian in the
    natural order, outside any array. *)
Definition freshEvaluator : Evaluator :=
  mkEvaluator (mkOffset 0 0) false little 0 [] None CFNone [].

(** A field that, by its own evaluation, yields its member pattern and raises
    an early-exit signal (as the body of a conditional ending in [break]). *)
Definition signallingField (id : NodeId) (name : string) (bits : N)
    (statement : ControlFlowStatement) : ASTNode :=
  mkASTNode id
    (patterns <- node_createPatterns (fieldDecl id name bits false) ;;
     modify (setCurrentControlFlowStatement statement) ;;
     ret patterns)
    (ret ASTNodeVoid).

(** [[[bitfield_order(direction, size)]]] with literal arguments. *)
Definition orderAttribute (direction size : N) : ASTNodeAttribute :=
  mkAttribute 2 "bitfield_order" [literalExpr 3 direction; literalExpr 4 size].

(** An evaluator as [freshEvaluator], with the cursor at byte [byte]. *)
Definition evaluatorAt (byte : N) : Evaluator :=
  mkEvaluator (mkOffset byte 0) false little 0 [] None CFNone [].

(** A bitfield of 4 bits, most significant bit first, holding an 8-bit field. *)
Definition overflowingBitfield : ASTNodeBitfield :=
  mkASTNodeBitfield 1 [orderAttribute 0 4] [fieldDecl 5 "a" 8 false].

(** A bitfield of 16 bits, most significant bit first, holding a 4-bit field. *)
Definition reversedBitfield : ASTNodeBitfield :=
  mkASTNodeBitfield 1 [orderAttribute 0 16] [fieldDecl 5 "a" 4 false].

(** Fields [a], a [continue], [c]. *)
Definition continueBitfield : ASTNodeBitfield :=
  mkASTNodeBitfield 1 []
    [fieldDecl 5 "a" 4 false; controlFlowDecl 6 CFContinue; fieldDecl 7 "c" 4 false].

(** Fields [a], a [break]. *)
Definition breakBitfield : ASTNodeBitfield :=
  mkASTNodeBitfield 1 [] [fieldDecl 5 "a" 4 false; controlFlowDecl 6 CFBreak].

(** Fields [a], then a field [b] that raises [break]. *)
Definition breakingFieldBitfield : ASTNodeBitfield :=
  mkASTNodeBitfield 1 []
    [fieldDecl 5 "a" 4 false; signallingField 6 "b" 4 CFBreak].

(** Four bits of padding, then a named field of four bits. *)
Definition paddedBitfield : ASTNodeBitfield :=
  mkASTNodeBitfield 1 [] [fieldDecl 5 "" 4 true; fieldDecl 6 "named" 4 false].

(** ** Vocabulary of the properties *)

(** The cursor as a number of bits, [byteOffset * 8 + bitOffset], before
    lines 110 and 111 reduce it to 64 bits. *)
Definition bitIndex (pos : ByteAndBitOffset) : N :=
  byteOffset pos * 8 + bitOffset pos.

(** The distance between two positions as section 4.2 of the spec words it:
    the absolute difference of their numbers of bits. *)
Definition bitDistance (a b : ByteAndBitOffset) : N :=
  if bitIndex b <? bitIndex a then bitIndex a - bitIndex b
  else bitIndex b - bitIndex a.

(** The patterns the loop keeps when it leaves on [statement], and the
    evaluator it leaves. *)
Definition keptPatterns (statement : ControlFlowStatement)
    (potentialPatterns : list Pattern) : list Pattern :=
  match statement with
  | CFContinue => []
  | _ => potentialPatterns
  end.

Definition signalCleared (statement : ControlFlowStatement) (ev : Evaluator)
    : Evaluator :=
  match statement with
  | CFBreak | CFContinue => setCurrentControlFlowStatement CFNone ev
  | _ => ev
  end.

(** The direction argument evaluated to a literal equal to 0 or 1. *)
Definition isDirection (directionNode : EvaluatedNode) : bool :=
  match directionNode with
  | ASTNodeLiteral l => (toUnsigned l =? 0) || (toUnsigned l =? 1)
  | ASTNodeVoid => false
  end.

(** The size argument evaluated to a literal strictly greater than zero. *)
Definition isPositiveSize (sizeNode : EvaluatedNode) : bool :=
  match sizeNode with
  | ASTNodeLiteral l => 0 <? toUnsigned l
  | ASTNodeVoid => false
  end.

(** Both arguments of a two-argument attribute evaluate, one after the other
    from [ev], to [directionNode] and [sizeNode]. Nothing is asked of an
    attribute with another number of arguments: they are not evaluated. *)
Definition argumentsEvaluateTo (orderAttribute : ASTNodeAttribute)
    (ev : Evaluator) (directionNode sizeNode : EvaluatedNode)
    (ev2 : Evaluator) : Prop :=
  match getArguments orderAttribute with
  | [argument0; argument1] =>
      exists ev1,
        node_evaluate argument0 ev = (Normal directionNode, ev1) /\
        node_evaluate argument1 ev1 = (Normal sizeNode, ev2)
  | _ => True
  end.

(** The pattern the call creates on lines 37-39. *)
Definition freshPattern (ev : Evaluator) : Bitfield :=
  setSection (getSectionId ev)
    (newPatternBitfield (getBitwiseReadOffset ev) (m_defaultEndian ev) 0).

(** The size [setSize] records with the cursor at [endPosition]: the fixed
    size, narrowed to 64 bits, if one is declared, the distance from
    [initialPosition] otherwise. *)
Definition accountedSize (fixedSize : N) (initialPosition endPosition : ByteAndBitOffset)
    : N :=
  if 0 <? fixedSize then u64 fixedSize
  else totalBitSize initialPosition endPosition.

(** The running total exceeds a declared fixed size. *)
Definition exceeds (fixedSize : N) (initialPosition endPosition : ByteAndBitOffset)
    : bool :=
  (0 <? fixedSize) && (fixedSize <? totalBitSize initialPosition endPosition).

(** The test of lines 126-136: outside an array, a pending signal makes the
    loop leave. *)
Definition stopsLoop (ev : Evaluator) : bool :=
  match getCurrentArrayIndex ev with
  | None => negb (ControlFlowStatement_eqb (getCurrentControlFlowStatement ev) CFNone)
  | Some _ => false
  end.

(** The loop runs through [entries] and is about to take the next entry:
    each entry returned, fitted the declared size and left nothing that makes
    the loop leave. The result is the pattern, the accumulator and the
    evaluator at that point. *)
Fixpoint runsThrough (fixedSize : N) (initialPosition : ByteAndBitOffset)
    (entries : list ASTNode) (bitfieldPattern : Bitfield)
    (potentialPatterns : list Pattern) (ev : Evaluator)
    : option (Bitfield * list Pattern * Evaluator) :=
  match entries with
  | [] => Some (bitfieldPattern, potentialPatterns, ev)
  | entry :: rest =>
      match node_createPatterns entry ev with
      | (Normal patterns, ev1) =>
          if exceeds fixedSize initialPosition (getBitwiseReadOffset ev1)
             || stopsLoop ev1
          then None
          else
            runsThrough fixedSize initialPosition rest
              (setBitSize
                 (accountedSize fixedSize initialPosition (getBitwiseReadOffset ev1))
                 bitfieldPattern)
              (potentialPatterns ++ patterns)%list ev1
      | (Thrown _, _) => None
      end
  end.

(** What is asked of the attribute pipeline where a property of the call
    depends on it: that it returns, that it leaves the size and the members of
    the pattern alone, that it leaves the cursor alone, that it leaves the
    pending signal alone. *)
Definition returns (applyTypeAttributes : ASTNodeBitfield -> Bitfield -> M Bitfield)
    (self : ASTNodeBitfield) : Prop :=
  forall pattern ev, exists pattern' ev',
    applyTypeAttributes self pattern ev = (Normal pattern', ev').

Definition keepsLayout (applyTypeAttributes : ASTNodeBitfield -> Bitfield -> M Bitfield)
    (self : ASTNodeBitfield) : Prop :=
  forall pattern ev pattern' ev',
    applyTypeAttributes self pattern ev = (Normal pattern', ev') ->
    bf_bitSize pattern' = bf_bitSize pattern /\
    bf_fields pattern' = bf_fields pattern.

Definition keepsCursor (applyTypeAttributes : ASTNodeBitfield -> Bitfield -> M Bitfield)
    (self : ASTNodeBitfield) : Prop :=
  forall pattern ev,
    getBitwiseReadOffset (snd (applyTypeAttributes self pattern ev))
      = getBitwiseReadOffset ev.

Definition keepsSignal (applyTypeAttributes : ASTNodeBitfield -> Bitfield -> M Bitfield)
    (self : ASTNodeBitfield) : Prop :=
  forall pattern ev,
    getCurrentControlFlowStatement (snd (applyTypeAttributes self pattern ev))
      = getCurrentControlFlowStatement ev.

(** The pattern as lines 150-153 leave it, from the pattern and the
    accumulator the loop left and the evaluator at that point. *)
Definition assembled (bitfieldPattern : Bitfield) (potentialPatterns : list Pattern)
    (ev : Evaluator) : Bitfield :=
  setFields (visibleFields (bf_offset bitfieldPattern) potentialPatterns)
    (setReversed (readOrderIsReversed ev) bitfieldPattern).

(** The evaluator as lines 151-152 leave it. *)
Definition rewound (reversedChanged : bool) (initialPosition : ByteAndBitOffset)
    (ev : Evaluator) : Evaluator :=
  if reversedChanged then setBitwiseReadOffset initialPosition ev else ev.

(** The call on [self] from [ev] gets as far as this: the order is resolved
    to [(bp, prev, rc, fs)] with the evaluator at [ev1]; the loop runs through
    the entries [done], accumulating [accumulated]; the next entry, [trigger],
    returns [patterns] with the evaluator at [ev3]. *)
Definition reaches (self : ASTNodeBitfield) (ev : Evaluator)
    (done : list ASTNode) (trigger : ASTNode) (rest : list ASTNode)
    (bp : Bitfield) (prev rc : bool) (fs : N) (ev1 : Evaluator)
    (accumulated patterns : list Pattern) (ev3 : Evaluator) : Prop :=
  resolveOrder self ev = (Normal (bp, prev, rc, fs), ev1) /\
  m_entries self = (done ++ trigger :: rest)%list /\
  exists bp1 ev2,
    runsThrough fs (getBitwiseReadOffset ev1) done bp []
      (pushScope (bf_offset bp) ev1) = Some (bp1, accumulated, ev2) /\
    node_createPatterns trigger ev2 = (Normal patterns, ev3).

(** ... and [trigger] fits the declared size and leaves the signal
    [statement] pending outside any array. *)
Definition leavesOn (statement : ControlFlowStatement) (fs : N)
    (ev1 ev3 : Evaluator) : Prop :=
  exceeds fs (getBitwiseReadOffset ev1) (getBitwiseReadOffset ev3) = false /\
  getCurrentArrayIndex ev3 = None /\
  getCurrentControlFlowStatement ev3 = statement.

(** ** The entries of the declaration *)

(** Line 19: the default constructor, a declaration with no entry (and, as
    any fresh [Attributable], no attribute). *)
Definition newASTNodeBitfield (id : NodeId) : ASTNodeBitfield :=
  mkASTNodeBitfield id [] [].

(** Line 31: [addEntry] puts the entry at the end of [m_entries]. *)
Definition addEntry (entry : ASTNode) (self : ASTNodeBitfield) : ASTNodeBitfield :=
  mkASTNodeBitfield (bitfield_id self) (m_attributes self)
    (m_entries self ++ [entry])%list.

(** ** Vocabulary of the further properties *)

(** The parent back-reference of a member, none for a pattern that is no
    member. *)
Definition getParentBitfield (p : Pattern) : option PatternRef :=
  match p with
  | PatternBitfieldField _ _ _ parent => parent
  | PatternBitfield d => bf_parent d
  | PatternOther _ => None
  end.

(** The patterns lines 140-148 leave out, and what they do to the others. *)
Definition isPaddingMember (p : Pattern) : bool :=
  isBitfieldMember p && isPadding p.

Definition adopted (parent : PatternRef) (p : Pattern) : Pattern :=
  if isBitfieldMember p then setParentBitfield parent p else p.

(** A computation that leaves the stack of scopes as it found it, whether it
    returns or throws. *)
Definition keepsScopes {A} (m : M A) : Prop :=
  forall ev, m_scopes (snd (m ev)) = m_scopes ev.

(** A computation that leaves the reversed-flag as it found it. *)
Definition keepsReversed {A} (m : M A) : Prop :=
  forall ev, readOrderIsReversed (snd (m ev)) = readOrderIsReversed ev.

(** The error of line 115, for the entry [node]. *)
Definition sizeError (node : ASTNode) : Error :=
  mkError E0005 "Bitfield's fields exceeded the attribute-allotted size."
    (node_id node).

(** The node an order attribute with these evaluated arguments is rejected
    for: the attribute when it has not two arguments, else the direction
    argument when it is no direction, else the size argument. *)
Definition rejectedNode (orderAttribute : ASTNodeAttribute)
    (directionNode : EvaluatedNode) : NodeId :=
  match getArguments orderAttribute with
  | [argument0; argument1] =>
      if isDirection directionNode then node_id argument1 else node_id argument0
  | _ => attr_id orderAttribute
  end.

(** * Properties *)

(** ** The monad *)

Lemma bind_Normal {A B} (m : M A) (f : A -> M B) ev a ev1 :
  m ev = (Normal a, ev1) -> bind m f ev = f a ev1.
Proof. intros H. unfold bind. rewrite H. reflexivity. Qed.

Lemma bind_Thrown {A B} (m : M A) (f : A -> M B) ev e ev1 :
  m ev = (Thrown e, ev1) -> bind m f ev = (Thrown e, ev1).
Proof. intros H. unfold bind. rewrite H. reflexivity. Qed.

Lemma bind_Normal_inv {A B} (m : M A) (f : A -> M B) ev b ev' :
  bind m f ev = (Normal b, ev') ->
  exists a ev1, m ev = (Normal a, ev1) /\ f a ev1 = (Normal b, ev').
Proof.
  unfold bind. destruct (m ev) as [[a | e] ev1]; intros H.
  - exists a, ev1. split; [reflexivity | exact H].
  - discriminate H.
Qed.

Lemma onScopeExit_eq {A} cleanup (body : M A) ev r ev1 :
  body ev = (r, ev1) -> onScopeExit cleanup body ev = (r, cleanup ev1).
Proof. intros H. unfold onScopeExit. rewrite H. reflexivity. Qed.

(** ** Attribute lookup *)

Lemma getAttributeByName_Some name self a :
  getAttributeByName name self = Some a ->
  In a (m_attributes self) /\ getAttribute a = name.
Proof.
  unfold getAttributeByName. intros H.
  apply find_some in H. destruct H as [Hin Heq].
  split; [exact Hin | now apply String.eqb_eq].
Qed.

Lemma getAttributeByName_present name self a :
  In a (m_attributes self) -> getAttribute a = name ->
  exists b, getAttributeByName name self = Some b.
Proof.
  unfold getAttributeByName. intros Hin Hname.
  destruct (find _ _) as [b |] eqn:Hfind.
  - now exists b.
  - apply (find_none _ _ Hfind) in Hin.
    rewrite Hname, String.eqb_refl in Hin. discriminate Hin.
Qed.

(** A declaration carrying a deprecated attribute has a [badAttribute]. *)
Lemma badAttribute_present self a :
  In a (m_attributes self) ->
  getAttribute a = "left_to_right" \/ getAttribute a = "right_to_left" ->
  exists bad, badAttribute self = Some bad /\ In bad (m_attributes self) /\
    (getAttribute bad = "left_to_right" \/ getAttribute bad = "right_to_left").
Proof.
  intros Hin Hname. unfold badAttribute.
  destruct (getAttributeByName "left_to_right" self) as [l |] eqn:Hl.
  - exists l. apply getAttributeByName_Some in Hl. intuition.
  - destruct Hname as [Hname | Hname].
    + destruct (getAttributeByName_present _ _ _ Hin Hname) as [b Hb]. congruence.
    + destruct (getAttributeByName_present _ _ _ Hin Hname) as [b Hb].
      exists b. split; [exact Hb |]. apply getAttributeByName_Some in Hb. intuition.
Qed.

(** ** Deprecated attributes *)

Lemma resolveOrder_badAttribute self bad ev :
  badAttribute self = Some bad ->
  resolveOrder self ev =
    (Thrown (mkError E0008
               ("Attribute '" ++ getAttribute bad ++ "' is no longer supported.")
               (attr_id bad)),
     updateRuntime (bitfield_id self) ev).
Proof.
  intros Hbad. unfold resolveOrder. rewrite Hbad. reflexivity.
Qed.

(** C8: a declaration carrying [left_to_right] or [right_to_left] is rejected
    with the attribute error E0008 naming that attribute as no longer
    supported, whatever its other attributes and entries are, and before
    anything else is evaluated: the evaluator is left as the progress hook of
    the call's first line left it. *)
Theorem deprecated_attribute_rejected :
  forall applyTypeAttributes self a ev,
    In a (m_attributes self) ->
    getAttribute a = "left_to_right" \/ getAttribute a = "right_to_left" ->
    exists bad,
      In bad (m_attributes self) /\
      (getAttribute bad = "left_to_right" \/ getAttribute bad = "right_to_left") /\
      createPatterns applyTypeAttributes self ev =
        (Thrown (mkError E0008
                   ("Attribute '" ++ getAttribute bad ++ "' is no longer supported.")
                   (attr_id bad)),
         updateRuntime (bitfield_id self) ev).
Proof.
  intros apply self a ev Hin Hname.
  destruct (badAttribute_present self a Hin Hname) as (bad & Hbad & Hbin & Hbname).
  exists bad. split; [exact Hbin |]. split; [exact Hbname |].
  unfold createPatterns.
  apply bind_Thrown. apply resolveOrder_badAttribute. exact Hbad.
Qed.

Lemma deprecated_attribute_rejected_witness :
  exists bad,
    In bad [mkAttribute 2 "bitfield_order" [literalExpr 3 0; literalExpr 4 16];
            mkAttribute 8 "right_to_left" []] /\
    (getAttribute bad = "left_to_right" \/ getAttribute bad = "right_to_left") /\
    createPatterns noTypeAttributes
      (mkASTNodeBitfield 1
         [mkAttribute 2 "bitfield_order" [literalExpr 3 0; literalExpr 4 16];
          mkAttribute 8 "right_to_left" []]
         [fieldDecl 5 "a" 4 false]) freshEvaluator =
      (Thrown (mkError E0008
                 ("Attribute '" ++ getAttribute bad ++ "' is no longer supported.")
                 (attr_id bad)),
       updateRuntime 1 freshEvaluator).
Proof.
  apply (deprecated_attribute_rejected noTypeAttributes
           (mkASTNodeBitfield 1
              [mkAttribute 2 "bitfield_order" [literalExpr 3 0; literalExpr 4 16];
               mkAttribute 8 "right_to_left" []]
              [fieldDecl 5 "a" 4 false])
           (mkAttribute 8 "right_to_left" []) freshEvaluator).
  - simpl. right. left. reflexivity.
  - right. reflexivity.
Defined.

(** ** The order attribute *)

Lemma orderOf_Normal d a0 ev :
  isDirection d = true ->
  exists order, orderOf d a0 ev = (Normal order, ev).
Proof.
  destruct d as [l |]; simpl; [| discriminate].
  intros H. destruct (toUnsigned l =? 0) eqn:H0.
  - now exists MostToLeastSignificant.
  - simpl in H. rewrite H. now exists LeastToMostSignificant.
Qed.

Lemma orderOf_Thrown d a0 ev :
  isDirection d = false ->
  exists e, orderOf d a0 ev = (Thrown e, ev) /\ errCode e = E0008 /\
            errNode e = node_id a0.
Proof.
  destruct d as [l |]; simpl.
  - intros H. apply orb_false_elim in H. destruct H as [H0 H1].
    rewrite H0, H1. eexists. split; [reflexivity |]. split; reflexivity.
  - intros _. eexists. split; [reflexivity |]. split; reflexivity.
Qed.

Lemma sizeOf_Normal s a1 ev :
  isPositiveSize s = true ->
  exists size, sizeOf s a1 ev = (Normal size, ev) /\ 0 < size /\
               s = ASTNodeLiteral (mkLiteral size).
Proof.
  destruct s as [[v] |]; simpl; [| discriminate].
  intros H. apply N.ltb_lt in H.
  destruct (v =? 0) eqn:H0.
  - apply N.eqb_eq in H0. lia.
  - exists v. repeat split. exact H.
Qed.

Lemma sizeOf_Thrown s a1 ev :
  isPositiveSize s = false ->
  exists e, sizeOf s a1 ev = (Thrown e, ev) /\ errCode e = E0008 /\
            errNode e = node_id a1.
Proof.
  destruct s as [[v] |]; simpl.
  - intros H. apply N.ltb_ge in H.
    assert (Hv : (v =? 0) = true) by (apply N.eqb_eq; lia).
    rewrite Hv. eexists. split; [reflexivity |]. split; reflexivity.
  - intros _. eexists. split; [reflexivity |]. split; reflexivity.
Qed.

(** Whatever the outcome, the attribute's checks run before the evaluator is
    touched: an attribute that throws leaves the state its arguments left. *)
Lemma applyOrderAttribute_two a0 a1 attr bp prev ev d s ev1 ev2 :
  getArguments attr = [a0; a1] ->
  node_evaluate a0 ev = (Normal d, ev1) ->
  node_evaluate a1 ev1 = (Normal s, ev2) ->
  applyOrderAttribute attr bp prev ev =
    (order <- orderOf d a0 ;;
     size <- sizeOf s a1 ;;
     let reversed := shouldBeReversed order (getEndian bp) in
     if negb (Bool.eqb prev reversed) then
       getBitwiseReadOffsetAndIncrement size ;;
       modify (setReadOrderReversed reversed) ;;
       ret (true, size)
     else ret (false, size)) ev2.
Proof.
  intros Hargs H0 H1. unfold applyOrderAttribute. rewrite Hargs.
  rewrite (bind_Normal _ _ _ _ _ H0). rewrite (bind_Normal _ _ _ _ _ H1).
  reflexivity.
Qed.

(** C5: the order attribute raises the attribute error E0008 exactly when it
    does not have two arguments, or its direction argument does not evaluate
    to a literal equal to 0 or 1, or its size argument does not evaluate to a
    literal strictly greater than zero. *)
Theorem order_attribute_error_iff :
  forall orderAttribute bitfieldPattern prevReversed ev directionNode sizeNode ev2,
    argumentsEvaluateTo orderAttribute ev directionNode sizeNode ev2 ->
    (exists e ev',
        applyOrderAttribute orderAttribute bitfieldPattern prevReversed ev
          = (Thrown e, ev') /\ errCode e = E0008)
    <->
    (List.length (getArguments orderAttribute) <> 2%nat \/
     isDirection directionNode = false \/
     isPositiveSize sizeNode = false).
Proof.
  intros attr bp prev ev d s ev2. unfold argumentsEvaluateTo.
  destruct (getArguments attr) as [| a0 [| a1 [| a2 rest]]] eqn:Hargs.
  - intros _. split.
    + intros _. left. simpl. lia.
    + intros _. unfold applyOrderAttribute. rewrite Hargs.
      eexists. eexists. split; reflexivity.
  - intros _. split.
    + intros _. left. simpl. lia.
    + intros _. unfold applyOrderAttribute. rewrite Hargs.
      eexists. eexists. split; reflexivity.
  - intros (ev1 & H0 & H1).
    rewrite (applyOrderAttribute_two a0 a1 attr bp prev ev d s ev1 ev2 Hargs H0 H1).
    split.
    + intros (e & ev' & Hrun & _). right.
      destruct (isDirection d) eqn:Hd; [| now left]. right.
      destruct (isPositiveSize s) eqn:Hs; [| reflexivity]. exfalso.
      destruct (orderOf_Normal d a0 ev2 Hd) as [order Ho].
      destruct (sizeOf_Normal s a1 ev2 Hs) as (size & Hsz & _ & _).
      rewrite (bind_Normal _ _ _ _ _ Ho) in Hrun.
      rewrite (bind_Normal _ _ _ _ _ Hsz) in Hrun.
      cbv zeta in Hrun.
      destruct (negb _) in Hrun; discriminate Hrun.
    + intros [Hlen | [Hd | Hs]].
      * simpl in Hlen. lia.
      * destruct (orderOf_Thrown d a0 ev2 Hd) as (e & He & Hcode & _).
        exists e, ev2. split; [| exact Hcode]. now apply bind_Thrown.
      * destruct (isDirection d) eqn:Hd.
        -- destruct (orderOf_Normal d a0 ev2 Hd) as [order Ho].
           destruct (sizeOf_Thrown s a1 ev2 Hs) as (e & He & Hcode & _).
           exists e, ev2. split; [| exact Hcode].
           rewrite (bind_Normal _ _ _ _ _ Ho). now apply bind_Thrown.
        -- destruct (orderOf_Thrown d a0 ev2 Hd) as (e & He & Hcode & _).
           exists e, ev2. split; [| exact Hcode]. now apply bind_Thrown.
  - intros _. split.
    + intros _. left. simpl. lia.
    + intros _. unfold applyOrderAttribute. rewrite Hargs.
      eexists. eexists. split; reflexivity.
Qed.

(** ** Size accounting *)

Lemma u64_small x : x < 2 ^ 64 -> u64 x = x.
Proof. intros H. unfold u64. now apply N.mod_small. Qed.

(** Where both numbers of bits fit 64 bits, the distance the code computes is
    the distance of the spec. *)
Lemma totalBitSize_bitDistance a b :
  bitIndex a < 2 ^ 64 -> bitIndex b < 2 ^ 64 ->
  totalBitSize a b = bitDistance a b.
Proof.
  intros Ha Hb. unfold totalBitSize, bitDistance.
  fold (bitIndex a). fold (bitIndex b).
  now rewrite (u64_small _ Ha), (u64_small _ Hb).
Qed.

Lemma setSize_fits fixedSize initialPosition bitfieldPattern node ev :
  exceeds fixedSize initialPosition (getBitwiseReadOffset ev) = false ->
  setSize fixedSize initialPosition bitfieldPattern node ev =
    (Normal (setBitSize
               (accountedSize fixedSize initialPosition (getBitwiseReadOffset ev))
               bitfieldPattern), ev).
Proof.
  unfold exceeds, setSize, accountedSize, bind, gets. intros H.
  destruct (0 <? fixedSize); simpl in *; [| reflexivity].
  rewrite H. reflexivity.
Qed.

Lemma setSize_exceeds fixedSize initialPosition bitfieldPattern node ev :
  exceeds fixedSize initialPosition (getBitwiseReadOffset ev) = true ->
  setSize fixedSize initialPosition bitfieldPattern node ev =
    (Thrown (mkError E0005 "Bitfield's fields exceeded the attribute-allotted size."
               (node_id node)), ev).
Proof.
  unfold exceeds, setSize, bind, gets. intros H.
  apply andb_true_iff in H. destruct H as [H0 H1].
  rewrite H0, H1. reflexivity.
Qed.

Lemma exceeds_unbounded initialPosition endPosition :
  exceeds 0 initialPosition endPosition = false.
Proof. reflexivity. Qed.


(** ** One turn of the loop *)

Section LoopStep.

Variables (fixedSize : N) (initialPosition : ByteAndBitOffset).
Variables (entry : ASTNode) (rest : list ASTNode).
Variables (bitfieldPattern : Bitfield) (potentialPatterns patterns : list Pattern).
Variables (ev ev1 : Evaluator).

Hypothesis entry_returns : node_createPatterns entry ev = (Normal patterns, ev1).

Lemma fieldLoop_exceeds :
  exceeds fixedSize initialPosition (getBitwiseReadOffset ev1) = true ->
  fieldLoop fixedSize initialPosition (entry :: rest) bitfieldPattern
    potentialPatterns ev =
    (Thrown (mkError E0005 "Bitfield's fields exceeded the attribute-allotted size."
               (node_id entry)), ev1).
Proof.
  intros H. cbn [fieldLoop].
  rewrite (bind_Normal _ _ _ _ _ entry_returns).
  apply bind_Thrown. now apply setSize_exceeds.
Qed.

Hypothesis fits : exceeds fixedSize initialPosition (getBitwiseReadOffset ev1) = false.

Lemma fieldLoop_next :
  stopsLoop ev1 = false ->
  fieldLoop fixedSize initialPosition (entry :: rest) bitfieldPattern
    potentialPatterns ev =
    fieldLoop fixedSize initialPosition rest
      (setBitSize (accountedSize fixedSize initialPosition (getBitwiseReadOffset ev1))
         bitfieldPattern)
      (potentialPatterns ++ patterns)%list ev1.
Proof.
  intros H. cbn [fieldLoop].
  rewrite (bind_Normal _ _ _ _ _ entry_returns).
  rewrite (bind_Normal _ _ _ _ _ (setSize_fits _ _ _ _ _ fits)).
  unfold stopsLoop in H. unfold bind at 1, gets at 1.
  destruct (getCurrentArrayIndex ev1); [reflexivity |].
  unfold bind at 1, gets at 1.
  destruct (getCurrentControlFlowStatement ev1); try discriminate H.
  reflexivity.
Qed.

Hypothesis outside_array : getCurrentArrayIndex ev1 = None.

Lemma fieldLoop_Return :
  getCurrentControlFlowStatement ev1 = CFReturn ->
  fieldLoop fixedSize initialPosition (entry :: rest) bitfieldPattern
    potentialPatterns ev =
    (Normal (setBitSize
               (accountedSize fixedSize initialPosition (getBitwiseReadOffset ev1))
               bitfieldPattern,
             (potentialPatterns ++ patterns)%list), ev1).
Proof.
  intros H. cbn [fieldLoop].
  rewrite (bind_Normal _ _ _ _ _ entry_returns).
  rewrite (bind_Normal _ _ _ _ _ (setSize_fits _ _ _ _ _ fits)).
  unfold bind, gets. rewrite outside_array, H. reflexivity.
Qed.

Lemma fieldLoop_Break :
  getCurrentControlFlowStatement ev1 = CFBreak ->
  fieldLoop fixedSize initialPosition (entry :: rest) bitfieldPattern
    potentialPatterns ev =
    (Normal (setBitSize
               (accountedSize fixedSize initialPosition (getBitwiseReadOffset ev1))
               bitfieldPattern,
             (potentialPatterns ++ patterns)%list),
     setCurrentControlFlowStatement CFNone ev1).
Proof.
  intros H. cbn [fieldLoop].
  rewrite (bind_Normal _ _ _ _ _ entry_returns).
  rewrite (bind_Normal _ _ _ _ _ (setSize_fits _ _ _ _ _ fits)).
  unfold bind, gets. rewrite outside_array, H. reflexivity.
Qed.

Lemma fieldLoop_Continue :
  getCurrentControlFlowStatement ev1 = CFContinue ->
  fieldLoop fixedSize initialPosition (entry :: rest) bitfieldPattern
    potentialPatterns ev =
    (Normal (setBitSize
               (accountedSize fixedSize initialPosition (getBitwiseReadOffset ev1))
               bitfieldPattern,
             []), setCurrentControlFlowStatement CFNone ev1).
Proof.
  intros H. cbn [fieldLoop].
  rewrite (bind_Normal _ _ _ _ _ entry_returns).
  rewrite (bind_Normal _ _ _ _ _ (setSize_fits _ _ _ _ _ fits)).
  unfold bind, gets. rewrite outside_array, H. reflexivity.
Qed.

End LoopStep.

(** The loop over [done ++ rest], once it ran through [done], goes on with
    [rest]. *)
Lemma fieldLoop_app fixedSize initialPosition rest :
  forall done bitfieldPattern potentialPatterns ev bp1 pp1 ev1,
    runsThrough fixedSize initialPosition done bitfieldPattern potentialPatterns ev
      = Some (bp1, pp1, ev1) ->
    fieldLoop fixedSize initialPosition (done ++ rest)%list bitfieldPattern
      potentialPatterns ev =
    fieldLoop fixedSize initialPosition rest bp1 pp1 ev1.
Proof.
  induction done as [| entry done IH]; intros bp pp ev bp1 pp1 ev1 Hrun.
  - simpl in Hrun. injection Hrun as <- <- <-. reflexivity.
  - cbn [runsThrough] in Hrun.
    destruct (node_createPatterns entry ev) as [[ps | e] ev0] eqn:Hentry;
      [| discriminate Hrun].
    destruct (exceeds _ _ _) eqn:Hfits; [discriminate Hrun |].
    destruct (stopsLoop ev0) eqn:Hstop; [discriminate Hrun |].
    simpl in Hrun. rewrite <- app_comm_cons.
    rewrite (fieldLoop_next _ _ _ _ _ _ _ _ _ Hentry Hfits Hstop).
    now apply IH.
Qed.

(** The loop leaves the start position of the pattern alone. *)
Lemma runsThrough_offset fixedSize initialPosition :
  forall done bitfieldPattern potentialPatterns ev bp1 pp1 ev1,
    runsThrough fixedSize initialPosition done bitfieldPattern potentialPatterns ev
      = Some (bp1, pp1, ev1) ->
    bf_offset bp1 = bf_offset bitfieldPattern.
Proof.
  induction done as [| entry done IH]; intros bp pp ev bp1 pp1 ev1 Hrun.
  - simpl in Hrun. now injection Hrun as <- <- <-.
  - cbn [runsThrough] in Hrun.
    destruct (node_createPatterns entry ev) as [[ps | e] ev0]; [| discriminate Hrun].
    destruct (_ || _); [discriminate Hrun |].
    apply IH in Hrun. exact Hrun.
Qed.

(** ** The call as a sequence of its parts *)

Section Orchestration.

Variable applyTypeAttributes : ASTNodeBitfield -> Bitfield -> M Bitfield.
Variable self : ASTNodeBitfield.

Lemma resolveOrder_no_attribute ev :
  badAttribute self = None ->
  getAttributeByName "bitfield_order" self = None ->
  resolveOrder self ev =
    (Normal (freshPattern ev, readOrderIsReversed ev, false, 0),
     updateRuntime (bitfield_id self) ev).
Proof.
  intros Hbad Horder. unfold resolveOrder. rewrite Hbad, Horder. reflexivity.
Qed.

Lemma resolveOrder_attribute ev orderAttribute :
  badAttribute self = None ->
  getAttributeByName "bitfield_order" self = Some orderAttribute ->
  resolveOrder self ev =
    ('(reversedChanged, fixedSize) <-
       applyOrderAttribute orderAttribute (freshPattern ev) (readOrderIsReversed ev) ;;
     ret (freshPattern ev, readOrderIsReversed ev, reversedChanged, fixedSize))
      (updateRuntime (bitfield_id self) ev).
Proof.
  intros Hbad Horder. unfold resolveOrder. rewrite Hbad, Horder. reflexivity.
Qed.

(** A successful [resolveOrder] read the pattern and the flag off the
    evaluator it was called on. *)
Lemma resolveOrder_Normal_inv ev bp prev rc fs ev1 :
  resolveOrder self ev = (Normal (bp, prev, rc, fs), ev1) ->
  badAttribute self = None /\
  bp = freshPattern ev /\ prev = readOrderIsReversed ev /\
  match getAttributeByName "bitfield_order" self with
  | Some orderAttribute =>
      applyOrderAttribute orderAttribute (freshPattern ev) (readOrderIsReversed ev)
        (updateRuntime (bitfield_id self) ev) = (Normal (rc, fs), ev1)
  | None => rc = false /\ fs = 0 /\ ev1 = updateRuntime (bitfield_id self) ev
  end.
Proof.
  intros H.
  destruct (badAttribute self) as [bad |] eqn:Hbad.
  - rewrite (resolveOrder_badAttribute self bad ev Hbad) in H. discriminate H.
  - split; [reflexivity |].
    destruct (getAttributeByName "bitfield_order" self) as [attr |] eqn:Horder.
    + rewrite (resolveOrder_attribute ev attr Hbad Horder) in H.
      apply bind_Normal_inv in H. destruct H as ([rc' fs'] & ev0 & Happly & Hret).
      cbv in Hret. injection Hret as <- <- <- <- <-.
      repeat split. exact Happly.
    + rewrite (resolveOrder_no_attribute ev Hbad Horder) in H.
      injection H as <- <- <- <- <-. repeat split.
Qed.

Lemma createPatterns_resolved ev bp prev rc fs ev1 :
  resolveOrder self ev = (Normal (bp, prev, rc, fs), ev1) ->
  createPatterns applyTypeAttributes self ev =
    onScopeExit popScope (evaluateFields applyTypeAttributes self bp prev rc fs)
      (pushScope (bf_offset bp) ev1).
Proof.
  intros H. unfold createPatterns.
  rewrite (bind_Normal _ _ _ _ _ H). reflexivity.
Qed.

Lemma createPatterns_resolve_Thrown ev e ev1 :
  resolveOrder self ev = (Thrown e, ev1) ->
  createPatterns applyTypeAttributes self ev = (Thrown e, ev1).
Proof. intros H. unfold createPatterns. now apply bind_Thrown. Qed.

Lemma evaluateFields_loop_Normal bp prev rc fs ev bp2 pp ev2 :
  fieldLoop fs (getBitwiseReadOffset ev) (m_entries self) bp [] ev
    = (Normal (bp2, pp), ev2) ->
  evaluateFields applyTypeAttributes self bp prev rc fs ev =
    (bitfieldPattern <- applyTypeAttributes self (assembled bp2 pp ev2) ;;
     modify (setReadOrderReversed prev) ;;
     ret [PatternBitfield bitfieldPattern])
      (rewound rc (getBitwiseReadOffset ev) ev2).
Proof.
  intros H. unfold evaluateFields.
  unfold bind at 1, gets at 1.
  rewrite (bind_Normal _ _ _ _ _ H).
  unfold bind at 1, gets at 1.
  unfold rewound, assembled. destruct rc; reflexivity.
Qed.

Lemma evaluateFields_loop_Thrown bp prev rc fs ev e ev2 :
  fieldLoop fs (getBitwiseReadOffset ev) (m_entries self) bp [] ev
    = (Thrown e, ev2) ->
  evaluateFields applyTypeAttributes self bp prev rc fs ev = (Thrown e, ev2).
Proof.
  intros H. unfold evaluateFields.
  unfold bind at 1, gets at 1.
  now apply bind_Thrown.
Qed.

(** The call returns what its parts return. *)
Lemma createPatterns_run ev bp prev rc fs ev1 bp2 pp ev2 bf ev3 :
  resolveOrder self ev = (Normal (bp, prev, rc, fs), ev1) ->
  fieldLoop fs (getBitwiseReadOffset ev1) (m_entries self) bp []
    (pushScope (bf_offset bp) ev1) = (Normal (bp2, pp), ev2) ->
  applyTypeAttributes self (assembled bp2 pp ev2)
    (rewound rc (getBitwiseReadOffset ev1) ev2) = (Normal bf, ev3) ->
  createPatterns applyTypeAttributes self ev =
    (Normal [PatternBitfield bf], popScope (setReadOrderReversed prev ev3)).
Proof.
  intros Hres Hloop Happly.
  rewrite (createPatterns_resolved _ _ _ _ _ _ Hres).
  apply onScopeExit_eq.
  rewrite (evaluateFields_loop_Normal _ _ _ _ _ _ _ _ Hloop).
  change (getBitwiseReadOffset (pushScope (bf_offset bp) ev1))
    with (getBitwiseReadOffset ev1).
  rewrite (bind_Normal _ _ _ _ _ Happly). reflexivity.
Qed.

(** An exception of the loop leaves the call after the scope is closed,
    and after nothing else. *)
Lemma createPatterns_loop_Thrown ev bp prev rc fs ev1 e ev2 :
  resolveOrder self ev = (Normal (bp, prev, rc, fs), ev1) ->
  fieldLoop fs (getBitwiseReadOffset ev1) (m_entries self) bp []
    (pushScope (bf_offset bp) ev1) = (Thrown e, ev2) ->
  createPatterns applyTypeAttributes self ev = (Thrown e, popScope ev2).
Proof.
  intros Hres Hloop.
  rewrite (createPatterns_resolved _ _ _ _ _ _ Hres).
  apply onScopeExit_eq. now apply evaluateFields_loop_Thrown.
Qed.

(** A call that returned went through all its parts. *)
Lemma createPatterns_Normal_inv ev ps ev' :
  createPatterns applyTypeAttributes self ev = (Normal ps, ev') ->
  exists bp prev rc fs ev1 bp2 pp ev2 bf ev3,
    resolveOrder self ev = (Normal (bp, prev, rc, fs), ev1) /\
    fieldLoop fs (getBitwiseReadOffset ev1) (m_entries self) bp []
      (pushScope (bf_offset bp) ev1) = (Normal (bp2, pp), ev2) /\
    applyTypeAttributes self (assembled bp2 pp ev2)
      (rewound rc (getBitwiseReadOffset ev1) ev2) = (Normal bf, ev3) /\
    ps = [PatternBitfield bf] /\
    ev' = popScope (setReadOrderReversed prev ev3).
Proof.
  intros H.
  destruct (resolveOrder self ev) as [[[[[bp prev] rc] fs] | e] ev1] eqn:Hres.
  2:{ rewrite (createPatterns_resolve_Thrown _ _ _ Hres) in H. discriminate H. }
  destruct (fieldLoop fs (getBitwiseReadOffset ev1) (m_entries self) bp []
              (pushScope (bf_offset bp) ev1)) as [[[bp2 pp] | e] ev2] eqn:Hloop.
  2:{ rewrite (createPatterns_loop_Thrown _ _ _ _ _ _ _ _ Hres Hloop) in H.
      discriminate H. }
  destruct (applyTypeAttributes self (assembled bp2 pp ev2)
              (rewound rc (getBitwiseReadOffset ev1) ev2)) as [[bf | e] ev3]
    eqn:Happly.
  - rewrite (createPatterns_run _ _ _ _ _ _ _ _ _ _ _ Hres Hloop Happly) in H.
    injection H as <- <-.
    exists bp, prev, rc, fs, ev1, bp2, pp, ev2, bf, ev3.
    repeat split; assumption.
  - rewrite (createPatterns_resolved _ _ _ _ _ _ Hres) in H.
    unfold onScopeExit in H.
    rewrite (evaluateFields_loop_Normal _ _ _ _ _ _ _ _ Hloop) in H.
    change (getBitwiseReadOffset (pushScope (bf_offset bp) ev1))
      with (getBitwiseReadOffset ev1) in H.
    rewrite (bind_Thrown _ _ _ _ _ Happly) in H. discriminate H.
Qed.

(** A call that returns restores the reversed-flag it found. *)
Lemma createPatterns_Normal_reversed ev ps ev' :
  createPatterns applyTypeAttributes self ev = (Normal ps, ev') ->
  readOrderIsReversed ev' = readOrderIsReversed ev.
Proof.
  intros H. apply createPatterns_Normal_inv in H.
  destruct H as (bp & prev & rc & fs & ev1 & bp2 & pp & ev2 & bf & ev3
                 & Hres & _ & _ & _ & ->).
  apply resolveOrder_Normal_inv in Hres.
  destruct Hres as (_ & _ & -> & _). reflexivity.
Qed.

End Orchestration.

(** ** Leaving the loop *)

Lemma setBitSize_offset size (b : Bitfield) : bf_offset (setBitSize size b) = bf_offset b.
Proof. reflexivity. Qed.

Lemma fieldLoop_leaves fixedSize initialPosition done trigger rest statement :
  forall bp pp ev bp1 accumulated ev2 patterns ev3,
    runsThrough fixedSize initialPosition done bp pp ev = Some (bp1, accumulated, ev2) ->
    node_createPatterns trigger ev2 = (Normal patterns, ev3) ->
    exceeds fixedSize initialPosition (getBitwiseReadOffset ev3) = false ->
    getCurrentArrayIndex ev3 = None ->
    getCurrentControlFlowStatement ev3 = statement ->
    statement <> CFNone ->
    fieldLoop fixedSize initialPosition (done ++ trigger :: rest)%list bp pp ev =
      (Normal (setBitSize
                 (accountedSize fixedSize initialPosition (getBitwiseReadOffset ev3)) bp1,
               keptPatterns statement (accumulated ++ patterns)%list),
       signalCleared statement ev3).
Proof.
  intros bp pp ev bp1 acc ev2 patterns ev3 Hrun Htrigger Hfits Harray Hsignal Hne.
  rewrite (fieldLoop_app _ _ _ _ _ _ _ _ _ _ Hrun).
  destruct statement; [congruence | | |].
  - exact (fieldLoop_Continue _ _ _ _ _ _ _ _ _ Htrigger Hfits Harray Hsignal).
  - exact (fieldLoop_Break _ _ _ _ _ _ _ _ _ Htrigger Hfits Harray Hsignal).
  - exact (fieldLoop_Return _ _ _ _ _ _ _ _ _ Htrigger Hfits Harray Hsignal).
Qed.

Section Leaving.

Variable applyTypeAttributes : ASTNodeBitfield -> Bitfield -> M Bitfield.
Variables (self : ASTNodeBitfield) (ev : Evaluator).
Variables (done : list ASTNode) (trigger : ASTNode) (rest : list ASTNode).
Variables (bp : Bitfield) (prev rc : bool) (fs : N) (ev1 : Evaluator).
Variables (accumulated patterns : list Pattern) (ev3 : Evaluator).

Hypothesis run : reaches self ev done trigger rest bp prev rc fs ev1
                   accumulated patterns ev3.

(** The call when [trigger] leaves a signal that ends the loop: what the loop
    yields, and what the call returns once the attribute pipeline returned. *)
Lemma createPatterns_leaves statement :
  leavesOn statement fs ev1 ev3 ->
  statement <> CFNone ->
  exists bp2,
    bf_offset bp2 = bf_offset bp /\
    bf_bitSize bp2 =
      accountedSize fs (getBitwiseReadOffset ev1) (getBitwiseReadOffset ev3) /\
    fieldLoop fs (getBitwiseReadOffset ev1) (m_entries self) bp []
      (pushScope (bf_offset bp) ev1) =
      (Normal (bp2, keptPatterns statement (accumulated ++ patterns)%list),
       signalCleared statement ev3) /\
    forall bf ev4,
      applyTypeAttributes self
        (assembled bp2 (keptPatterns statement (accumulated ++ patterns)%list)
           (signalCleared statement ev3))
        (rewound rc (getBitwiseReadOffset ev1) (signalCleared statement ev3))
        = (Normal bf, ev4) ->
      createPatterns applyTypeAttributes self ev =
        (Normal [PatternBitfield bf], popScope (setReadOrderReversed prev ev4)).
Proof.
  intros (Hfits & Harray & Hsignal) Hne.
  destruct run as (Hres & Hentries & bp1 & ev2 & Hdone & Htrigger).
  pose proof (fieldLoop_leaves fs (getBitwiseReadOffset ev1) done trigger rest
                statement _ _ _ _ _ _ _ _ Hdone Htrigger Hfits Harray Hsignal Hne)
    as Hloop.
  rewrite <- Hentries in Hloop.
  eexists. split; [| split; [| split; [exact Hloop |]]].
  - rewrite setBitSize_offset. exact (runsThrough_offset _ _ _ _ _ _ _ _ _ Hdone).
  - reflexivity.
  - intros bf ev4 Happly.
    exact (createPatterns_run _ _ _ _ _ _ _ _ _ _ _ _ _ Hres Hloop Happly).
Qed.


End Leaving.

(** ** Early exit *)

Lemma rewound_signal rc initialPosition ev :
  getCurrentControlFlowStatement (rewound rc initialPosition ev)
    = getCurrentControlFlowStatement ev.
Proof. destruct rc; reflexivity. Qed.

Lemma rewound_offset rc initialPosition ev :
  getBitwiseReadOffset (rewound rc initialPosition ev)
    = if rc then initialPosition else getBitwiseReadOffset ev.
Proof. destruct rc; reflexivity. Qed.

(** C3: when the entry after the entries [done] leaves a pending Continue
    outside any array, the loop leaves right after that entry, whatever
    entries [rest] follow (the evaluator is the one that entry left, with the
    signal reset to None), and everything accumulated, the patterns of [done]
    included, is dropped: the returned bitfield has no visible member. The
    claim's [A, B, C] is [done = [A]], [rest = [C]]. *)
Theorem continue_discards_accumulated :
  forall applyTypeAttributes self ev done trigger rest bp prev rc fs ev1
         accumulated patterns ev3,
    returns applyTypeAttributes self ->
    keepsLayout applyTypeAttributes self ->
    keepsSignal applyTypeAttributes self ->
    reaches self ev done trigger rest bp prev rc fs ev1 accumulated patterns ev3 ->
    leavesOn CFContinue fs ev1 ev3 ->
    (exists bp2,
        fieldLoop fs (getBitwiseReadOffset ev1) (m_entries self) bp []
          (pushScope (bf_offset bp) ev1) =
          (Normal (bp2, []), setCurrentControlFlowStatement CFNone ev3)) /\
    (exists bf ev',
        createPatterns applyTypeAttributes self ev = (Normal [PatternBitfield bf], ev') /\
        bf_fields bf = [] /\
        getCurrentControlFlowStatement ev' = CFNone).
Proof.
  intros apply self ev done trigger rest bp prev rc fs ev1 acc patterns ev3
         Hreturns Hlayout Hsignal Hrun Hleaves.
  destruct (createPatterns_leaves apply _ _ _ _ _ _ _ _ _ _ _ _ _ Hrun CFContinue Hleaves)
    as (bp2 & _ & _ & Hloop & Hcall); [discriminate |].
  cbn [keptPatterns signalCleared] in Hloop, Hcall.
  split; [now exists bp2 |].
  destruct (Hreturns (assembled bp2 [] (setCurrentControlFlowStatement CFNone ev3))
              (rewound rc (getBitwiseReadOffset ev1)
                 (setCurrentControlFlowStatement CFNone ev3)))
    as (bf & ev4 & Happly).
  exists bf, (popScope (setReadOrderReversed prev ev4)).
  split; [exact (Hcall _ _ Happly) |]. split.
  - destruct (Hlayout _ _ _ _ Happly) as [_ Hfields]. rewrite Hfields. reflexivity.
  - pose proof (Hsignal (assembled bp2 [] (setCurrentControlFlowStatement CFNone ev3))
                  (rewound rc (getBitwiseReadOffset ev1)
                     (setCurrentControlFlowStatement CFNone ev3))) as Hs.
    rewrite Happly, rewound_signal in Hs. exact Hs.
Qed.

Lemma continue_discards_accumulated_witness :
  exists bf ev',
    createPatterns noTypeAttributes continueBitfield freshEvaluator
      = (Normal [PatternBitfield bf], ev') /\
    bf_fields bf = [] /\
    getCurrentControlFlowStatement ev' = CFNone.
Proof.
  refine (proj2 (continue_discards_accumulated noTypeAttributes continueBitfield
                   freshEvaluator [fieldDecl 5 "a" 4 false]
                   (controlFlowDecl 6 CFContinue) [fieldDecl 7 "c" 4 false]
                   (freshPattern freshEvaluator) false false 0
                   (updateRuntime 1 freshEvaluator)
                   [PatternBitfieldField "a" 4 false None] []
                   (snd (node_createPatterns (controlFlowDecl 6 CFContinue)
                           (snd (node_createPatterns (fieldDecl 5 "a" 4 false)
                                   (pushScope (mkOffset 0 0)
                                      (updateRuntime 1 freshEvaluator))))))
                   _ _ _ _ _)).
  - intros pattern ev. exists pattern, ev. reflexivity.
  - intros pattern ev pattern' ev' H. injection H as <- <-. split; reflexivity.
  - intros pattern ev. reflexivity.
  - split; [reflexivity |]. split; [reflexivity |].
    eexists. eexists. split; reflexivity.
  - repeat split; reflexivity.
Defined.

(** The visible members when [a] is followed by a field that raises Break. *)
Lemma break_keeps_patterns_of_trigger :
  exists bf ev',
    m_entries breakingFieldBitfield =
      [fieldDecl 5 "a" 4 false; signallingField 6 "b" 4 CFBreak] /\
    (forall ev,
        getCurrentControlFlowStatement
          (snd (node_createPatterns (signallingField 6 "b" 4 CFBreak) ev)) = CFBreak) /\
    getCurrentArrayIndex freshEvaluator = None /\
    createPatterns noTypeAttributes breakingFieldBitfield freshEvaluator
      = (Normal [PatternBitfield bf], ev') /\
    getCurrentControlFlowStatement ev' = CFNone /\
    bf_fields bf =
      [PatternBitfieldField "a" 4 false (Some (mkOffset 0 0));
       PatternBitfieldField "b" 4 false (Some (mkOffset 0 0))] /\
    bf_fields bf <> [PatternBitfieldField "a" 4 false (Some (mkOffset 0 0))].
Proof.
  eexists. eexists. split; [reflexivity |].
  split; [intros ev; reflexivity |]. split; [reflexivity |].
  split; [reflexivity |].
  split; [reflexivity |]. split; [reflexivity |]. discriminate.
Qed.

(** C7, amended: when the entry after the entries [done] leaves a pending
    Break outside any array, the loop leaves right after that entry, whatever
    entries follow, the signal is reset to None and everything accumulated is
    kept, the patterns that entry itself returned included: the visible
    members are those of the patterns of [done] followed by its own. *)
Theorem break_keeps_accumulated :
  forall applyTypeAttributes self ev done trigger rest bp prev rc fs ev1
         accumulated patterns ev3,
    returns applyTypeAttributes self ->
    keepsLayout applyTypeAttributes self ->
    keepsSignal applyTypeAttributes self ->
    reaches self ev done trigger rest bp prev rc fs ev1 accumulated patterns ev3 ->
    leavesOn CFBreak fs ev1 ev3 ->
    (exists bp2,
        fieldLoop fs (getBitwiseReadOffset ev1) (m_entries self) bp []
          (pushScope (bf_offset bp) ev1) =
          (Normal (bp2, (accumulated ++ patterns)%list),
           setCurrentControlFlowStatement CFNone ev3)) /\
    (exists bf ev',
        createPatterns applyTypeAttributes self ev = (Normal [PatternBitfield bf], ev') /\
        bf_fields bf = visibleFields (bf_offset bp) (accumulated ++ patterns)%list /\
        getCurrentControlFlowStatement ev' = CFNone).
Proof.
  intros apply self ev done trigger rest bp prev rc fs ev1 acc patterns ev3
         Hreturns Hlayout Hsignal Hrun Hleaves.
  destruct (createPatterns_leaves apply _ _ _ _ _ _ _ _ _ _ _ _ _ Hrun CFBreak Hleaves)
    as (bp2 & Hoffset & _ & Hloop & Hcall); [discriminate |].
  cbn [keptPatterns signalCleared] in Hloop, Hcall.
  split; [now exists bp2 |].
  destruct (Hreturns
              (assembled bp2 (acc ++ patterns)%list
                 (setCurrentControlFlowStatement CFNone ev3))
              (rewound rc (getBitwiseReadOffset ev1)
                 (setCurrentControlFlowStatement CFNone ev3)))
    as (bf & ev4 & Happly).
  exists bf, (popScope (setReadOrderReversed prev ev4)).
  split; [exact (Hcall _ _ Happly) |]. split.
  - destruct (Hlayout _ _ _ _ Happly) as [_ Hfields]. rewrite Hfields.
    unfold assembled. cbn [bf_fields setFields]. now rewrite Hoffset.
  - pose proof (Hsignal
                  (assembled bp2 (acc ++ patterns)%list
                     (setCurrentControlFlowStatement CFNone ev3))
                  (rewound rc (getBitwiseReadOffset ev1)
                     (setCurrentControlFlowStatement CFNone ev3))) as Hs.
    rewrite Happly, rewound_signal in Hs. exact Hs.
Qed.

Lemma break_keeps_accumulated_witness :
  exists bf ev',
    createPatterns noTypeAttributes breakBitfield freshEvaluator
      = (Normal [PatternBitfield bf], ev') /\
    bf_fields bf = [PatternBitfieldField "a" 4 false (Some (mkOffset 0 0))] /\
    getCurrentControlFlowStatement ev' = CFNone.
Proof.
  refine (proj2 (break_keeps_accumulated noTypeAttributes breakBitfield
                   freshEvaluator [fieldDecl 5 "a" 4 false]
                   (controlFlowDecl 6 CFBreak) []
                   (freshPattern freshEvaluator) false false 0
                   (updateRuntime 1 freshEvaluator)
                   [PatternBitfieldField "a" 4 false None] []
                   (snd (node_createPatterns (controlFlowDecl 6 CFBreak)
                           (snd (node_createPatterns (fieldDecl 5 "a" 4 false)
                                   (pushScope (mkOffset 0 0)
                                      (updateRuntime 1 freshEvaluator))))))
                   _ _ _ _ _)).
  - intros pattern ev. exists pattern, ev. reflexivity.
  - intros pattern ev pattern' ev' H. injection H as <- <-. split; reflexivity.
  - intros pattern ev. reflexivity.
  - split; [reflexivity |]. split; [reflexivity |].
    eexists. eexists. split; reflexivity.
  - repeat split; reflexivity.
Defined.

(** C10: when a pending Continue makes the loop drop what it accumulated,
    nothing else is undone. The loop leaves with the cursor where the last
    evaluated entry left it and with the size [setSize] recorded there (the
    fixed size narrowed to 64 bits, or the 64-bit distance from the start of
    the loop), and the call returns a pattern with no visible member and that
    size; unless the order attribute changed the read order, the cursor after
    the call is still the one the last evaluated entry left. That size is the
    number of bits between the start of the loop and that cursor when no size
    is fixed and both cursors, as numbers of bits, are below [2^64], and it
    is the fixed size when one below [2^64] is declared. *)
Theorem continue_keeps_cursor_and_size :
  forall applyTypeAttributes self ev done trigger rest bp prev rc fs ev1
         accumulated patterns ev3,
    returns applyTypeAttributes self ->
    keepsLayout applyTypeAttributes self ->
    keepsCursor applyTypeAttributes self ->
    reaches self ev done trigger rest bp prev rc fs ev1 accumulated patterns ev3 ->
    leavesOn CFContinue fs ev1 ev3 ->
    (exists bp2 ev2,
        fieldLoop fs (getBitwiseReadOffset ev1) (m_entries self) bp []
          (pushScope (bf_offset bp) ev1) = (Normal (bp2, []), ev2) /\
        getBitwiseReadOffset ev2 = getBitwiseReadOffset ev3 /\
        bf_bitSize bp2 =
          accountedSize fs (getBitwiseReadOffset ev1) (getBitwiseReadOffset ev3)) /\
    (exists bf ev',
        createPatterns applyTypeAttributes self ev = (Normal [PatternBitfield bf], ev') /\
        bf_fields bf = [] /\
        bf_bitSize bf =
          accountedSize fs (getBitwiseReadOffset ev1) (getBitwiseReadOffset ev3) /\
        getBitwiseReadOffset ev' =
          if rc then getBitwiseReadOffset ev1 else getBitwiseReadOffset ev3) /\
    (forall bf ev',
        createPatterns applyTypeAttributes self ev = (Normal [PatternBitfield bf], ev') ->
        (fs = 0 ->
         bitIndex (getBitwiseReadOffset ev1) < 2 ^ 64 ->
         bitIndex (getBitwiseReadOffset ev3) < 2 ^ 64 ->
         bf_bitSize bf =
           bitDistance (getBitwiseReadOffset ev1) (getBitwiseReadOffset ev3)) /\
        (0 < fs -> fs < 2 ^ 64 -> bf_bitSize bf = fs)).
Proof.
  intros apply self ev done trigger rest bp prev rc fs ev1 acc patterns ev3
         Hreturns Hlayout Hcursor Hrun Hleaves.
  destruct (createPatterns_leaves apply _ _ _ _ _ _ _ _ _ _ _ _ _ Hrun CFContinue Hleaves)
    as (bp2 & _ & Hsize & Hloop & Hcall); [discriminate |].
  cbn [keptPatterns signalCleared] in Hloop, Hcall.
  split; [| split].
  3:{ intros bf ev' Hreturned.
      destruct (Hreturns (assembled bp2 [] (setCurrentControlFlowStatement CFNone ev3))
                  (rewound rc (getBitwiseReadOffset ev1)
                     (setCurrentControlFlowStatement CFNone ev3)))
        as (bf0 & ev4 & Happly).
      rewrite (Hcall _ _ Happly) in Hreturned. injection Hreturned as -> _.
      destruct (Hlayout _ _ _ _ Happly) as [Hbits _].
      assert (Hbf : bf_bitSize bf =
                    accountedSize fs (getBitwiseReadOffset ev1)
                      (getBitwiseReadOffset ev3))
        by (rewrite Hbits; exact Hsize).
      split.
      - intros -> H1 H3. rewrite Hbf. unfold accountedSize. cbn [N.ltb N.compare].
        now apply totalBitSize_bitDistance.
      - intros Hpos Hsmall. rewrite Hbf. unfold accountedSize.
        apply N.ltb_lt in Hpos. rewrite Hpos. now apply u64_small. }
  - exists bp2, (setCurrentControlFlowStatement CFNone ev3).
    split; [exact Hloop |]. split; [reflexivity | exact Hsize].
  - destruct (Hreturns (assembled bp2 [] (setCurrentControlFlowStatement CFNone ev3))
                (rewound rc (getBitwiseReadOffset ev1)
                   (setCurrentControlFlowStatement CFNone ev3)))
      as (bf & ev4 & Happly).
    exists bf, (popScope (setReadOrderReversed prev ev4)).
    split; [exact (Hcall _ _ Happly) |].
    destruct (Hlayout _ _ _ _ Happly) as [Hbits Hfields].
    split; [rewrite Hfields; reflexivity |].
    split; [rewrite Hbits; exact Hsize |].
    pose proof (Hcursor (assembled bp2 [] (setCurrentControlFlowStatement CFNone ev3))
                  (rewound rc (getBitwiseReadOffset ev1)
                     (setCurrentControlFlowStatement CFNone ev3))) as Hc.
    rewrite Happly, rewound_offset in Hc. exact Hc.
Qed.

Lemma continue_keeps_cursor_and_size_witness :
  exists bf ev',
    createPatterns noTypeAttributes continueBitfield freshEvaluator
      = (Normal [PatternBitfield bf], ev') /\
    bf_fields bf = [] /\
    bf_bitSize bf = 4 /\
    getBitwiseReadOffset ev' = mkOffset 0 4.
Proof.
  refine (proj1 (proj2 (continue_keeps_cursor_and_size noTypeAttributes continueBitfield
                   freshEvaluator [fieldDecl 5 "a" 4 false]
                   (controlFlowDecl 6 CFContinue) [fieldDecl 7 "c" 4 false]
                   (freshPattern freshEvaluator) false false 0
                   (updateRuntime 1 freshEvaluator)
                   [PatternBitfieldField "a" 4 false None] []
                   (snd (node_createPatterns (controlFlowDecl 6 CFContinue)
                           (snd (node_createPatterns (fieldDecl 5 "a" 4 false)
                                   (pushScope (mkOffset 0 0)
                                      (updateRuntime 1 freshEvaluator))))))
                   _ _ _ _ _))).
  - intros pattern ev. exists pattern, ev. reflexivity.
  - intros pattern ev pattern' ev' H. injection H as <- <-. split; reflexivity.
  - intros pattern ev. reflexivity.
  - split; [reflexivity |]. split; [reflexivity |].
    eexists. eexists. split; reflexivity.
  - repeat split; reflexivity.
Defined.

(** ** The size error *)



(** ** The final bit size *)

(** After at least one entry, the pattern the loop yields has the size
    [setSize] records at the cursor the loop leaves. *)
Lemma fieldLoop_bitSize fixedSize initialPosition :
  forall entries bp pp ev bp2 pp2 ev2,
    fieldLoop fixedSize initialPosition entries bp pp ev = (Normal (bp2, pp2), ev2) ->
    entries <> [] \/
      bf_bitSize bp = accountedSize fixedSize initialPosition (getBitwiseReadOffset ev) ->
    bf_bitSize bp2 = accountedSize fixedSize initialPosition (getBitwiseReadOffset ev2).
Proof.
  induction entries as [| entry rest IH]; intros bp pp ev bp2 pp2 ev2 Hloop Hstart.
  - cbn in Hloop. injection Hloop as <- <- <-.
    destruct Hstart as [Hne | Hsize]; [congruence | exact Hsize].
  - cbn [fieldLoop] in Hloop.
    apply bind_Normal_inv in Hloop. destruct Hloop as (ps & ev1 & Hentry & Hloop).
    apply bind_Normal_inv in Hloop. destruct Hloop as (bp1 & ev1' & Hsize & Hloop).
    destruct (exceeds fixedSize initialPosition (getBitwiseReadOffset ev1)) eqn:Hfits.
    { rewrite (setSize_exceeds _ _ _ _ _ Hfits) in Hsize. discriminate Hsize. }
    rewrite (setSize_fits _ _ _ _ _ Hfits) in Hsize. injection Hsize as <- <-.
    unfold bind at 1, gets at 1 in Hloop.
    destruct (getCurrentArrayIndex ev1).
    + apply IH in Hloop; [exact Hloop | right; reflexivity].
    + unfold bind at 1, gets at 1 in Hloop.
      destruct (getCurrentControlFlowStatement ev1).
      * apply IH in Hloop; [exact Hloop | right; reflexivity].
      * cbv [bind modify ret] in Hloop. injection Hloop as <- <- <-. reflexivity.
      * cbv [bind modify ret] in Hloop. injection Hloop as <- <- <-. reflexivity.
      * cbv [ret] in Hloop. injection Hloop as <- <- <-. reflexivity.
Qed.

Lemma fieldLoop_offset fixedSize initialPosition :
  forall entries bp pp ev bp2 pp2 ev2,
    fieldLoop fixedSize initialPosition entries bp pp ev = (Normal (bp2, pp2), ev2) ->
    bf_offset bp2 = bf_offset bp.
Proof.
  induction entries as [| entry rest IH]; intros bp pp ev bp2 pp2 ev2 Hloop.
  - cbn in Hloop. now injection Hloop as <- <- <-.
  - cbn [fieldLoop] in Hloop.
    apply bind_Normal_inv in Hloop. destruct Hloop as (ps & ev1 & Hentry & Hloop).
    apply bind_Normal_inv in Hloop. destruct Hloop as (bp1 & ev1' & Hsize & Hloop).
    destruct (exceeds fixedSize initialPosition (getBitwiseReadOffset ev1)) eqn:Hfits.
    { rewrite (setSize_exceeds _ _ _ _ _ Hfits) in Hsize. discriminate Hsize. }
    rewrite (setSize_fits _ _ _ _ _ Hfits) in Hsize. injection Hsize as <- <-.
    unfold bind at 1, gets at 1 in Hloop.
    destruct (getCurrentArrayIndex ev1).
    + apply IH in Hloop. exact Hloop.
    + unfold bind at 1, gets at 1 in Hloop.
      destruct (getCurrentControlFlowStatement ev1).
      * apply IH in Hloop. exact Hloop.
      * cbv [bind modify ret] in Hloop. injection Hloop as <- <- <-. reflexivity.
      * cbv [bind modify ret] in Hloop. injection Hloop as <- <- <-. reflexivity.
      * cbv [ret] in Hloop. injection Hloop as <- <- <-. reflexivity.
Qed.

(** An order attribute that is accepted had two arguments, a direction and a
    size strictly greater than zero, which is the fixed size; it moved the
    cursor, by that size, only if it changed the read order. *)
Lemma applyOrderAttribute_Normal_inv attr bp prev ev rc fs ev1 :
  applyOrderAttribute attr bp prev ev = (Normal (rc, fs), ev1) ->
  exists directionNode evB,
    List.length (getArguments attr) = 2%nat /\
    argumentsEvaluateTo attr ev directionNode (ASTNodeLiteral (mkLiteral fs)) evB /\
    isDirection directionNode = true /\
    0 < fs /\
    ev1 = if rc
          then setReadOrderReversed (negb prev)
                 (setBitwiseReadOffset (advance (getBitwiseReadOffset evB) fs) evB)
          else evB.
Proof.
  intros H. unfold argumentsEvaluateTo.
  destruct (getArguments attr) as [| a0 [| a1 [| a2 rest]]] eqn:Hargs;
    try (unfold applyOrderAttribute in H; rewrite Hargs in H; discriminate H).
  destruct (node_evaluate a0 ev) as [[d | e] evA] eqn:H0.
  2:{ unfold applyOrderAttribute in H. rewrite Hargs in H.
      rewrite (bind_Thrown _ _ _ _ _ H0) in H. discriminate H. }
  destruct (node_evaluate a1 evA) as [[s | e] evB] eqn:H1.
  2:{ unfold applyOrderAttribute in H. rewrite Hargs in H.
      rewrite (bind_Normal _ _ _ _ _ H0), (bind_Thrown _ _ _ _ _ H1) in H.
      discriminate H. }
  rewrite (applyOrderAttribute_two a0 a1 attr bp prev ev d s evA evB Hargs H0 H1) in H.
  destruct (isDirection d) eqn:Hd.
  2:{ destruct (orderOf_Thrown d a0 evB Hd) as (e & He & _).
      rewrite (bind_Thrown _ _ _ _ _ He) in H. discriminate H. }
  destruct (orderOf_Normal d a0 evB Hd) as [order Ho].
  rewrite (bind_Normal _ _ _ _ _ Ho) in H.
  destruct (isPositiveSize s) eqn:Hs.
  2:{ destruct (sizeOf_Thrown s a1 evB Hs) as (e & He & _).
      rewrite (bind_Thrown _ _ _ _ _ He) in H. discriminate H. }
  destruct (sizeOf_Normal s a1 evB Hs) as (size & Hsz & Hpos & ->).
  rewrite (bind_Normal _ _ _ _ _ Hsz) in H. cbv zeta in H.
  exists d, evB.
  destruct (Bool.eqb prev (shouldBeReversed order (getEndian bp))) eqn:Hsame;
    cbn [negb] in H.
  - cbv [ret] in H. injection H as <- <- <-.
    repeat split; try assumption. exists evA. split; first [assumption | reflexivity].
  - cbv [bind getBitwiseReadOffsetAndIncrement modify ret] in H.
    injection H as <- <- <-.
    assert (Hflip : shouldBeReversed order (getEndian bp) = negb prev).
    { revert Hsame.
      destruct prev, (shouldBeReversed order (getEndian bp)); simpl; congruence. }
    rewrite Hflip.
    repeat split; try assumption. exists evA. split; first [assumption | reflexivity].
Qed.

(** A fixed size of [2^64 + 8] bits is recorded as 8; and without a fixed
    size, an 8-bit field read from bit 4 of byte [2^61 - 1] gives the size
    [2^64 - 8], where the cursor moved by 8 bits. *)
Lemma bit_size_beyond_64_bits :
  (exists bf ev',
      createPatterns noTypeAttributes
        (mkASTNodeBitfield 1 [orderAttribute 1 (2 ^ 64 + 8)] [fieldDecl 5 "a" 4 false])
        freshEvaluator = (Normal [PatternBitfield bf], ev') /\
      bf_bitSize bf = 8 /\
      bf_bitSize bf <> 2 ^ 64 + 8) /\
  (exists bf ev',
      createPatterns noTypeAttributes
        (mkASTNodeBitfield 1 [] [fieldDecl 5 "a" 8 false])
        (mkEvaluator (mkOffset (2 ^ 61 - 1) 4) false little 0 [] None CFNone [])
        = (Normal [PatternBitfield bf], ev') /\
      bitDistance (mkOffset (2 ^ 61 - 1) 4) (getBitwiseReadOffset ev') = 8 /\
      bf_bitSize bf = 2 ^ 64 - 8 /\
      bf_bitSize bf <> 8).
Proof.
  split.
  - eexists. eexists. split; [vm_compute; reflexivity |].
    split; [reflexivity | discriminate].
  - eexists. eexists. split; [vm_compute; reflexivity |].
    split; [reflexivity |]. split; [reflexivity | discriminate].
Qed.

(** C4, amended: for a call that returns on a declaration with at least one
    entry, the size of the returned pattern is the fixed size when there is
    an order attribute (the value its size argument evaluated to) and that
    size is below [2^64]; without an order attribute it is the distance in
    bits between the cursor at the start of the loop and the cursor as the
    loop left it, when both cursors, as numbers of bits, are below [2^64]. *)
Theorem result_bit_size :
  forall applyTypeAttributes self ev ps ev',
    keepsLayout applyTypeAttributes self ->
    m_entries self <> [] ->
    createPatterns applyTypeAttributes self ev = (Normal ps, ev') ->
    exists bf bp prev rc fs ev1 bp2 pp ev2,
      ps = [PatternBitfield bf] /\
      resolveOrder self ev = (Normal (bp, prev, rc, fs), ev1) /\
      fieldLoop fs (getBitwiseReadOffset ev1) (m_entries self) bp []
        (pushScope (bf_offset bp) ev1) = (Normal (bp2, pp), ev2) /\
      match getAttributeByName "bitfield_order" self with
      | Some orderAttribute =>
          (exists directionNode evB,
              argumentsEvaluateTo orderAttribute (updateRuntime (bitfield_id self) ev)
                directionNode (ASTNodeLiteral (mkLiteral fs)) evB) /\
          0 < fs /\
          (fs < 2 ^ 64 -> bf_bitSize bf = fs)
      | None =>
          bitIndex (getBitwiseReadOffset ev1) < 2 ^ 64 ->
          bitIndex (getBitwiseReadOffset ev2) < 2 ^ 64 ->
          bf_bitSize bf =
            bitDistance (getBitwiseReadOffset ev1) (getBitwiseReadOffset ev2)
      end.
Proof.
  intros apply self ev ps ev' Hlayout Hentries Hcall.
  apply createPatterns_Normal_inv in Hcall.
  destruct Hcall as (bp & prev & rc & fs & ev1 & bp2 & pp & ev2 & bf & ev3
                     & Hres & Hloop & Happly & -> & _).
  exists bf, bp, prev, rc, fs, ev1, bp2, pp, ev2.
  split; [reflexivity |]. split; [exact Hres |]. split; [exact Hloop |].
  destruct (Hlayout _ _ _ _ Happly) as [Hbits _].
  assert (Hsize : bf_bitSize bf =
                  accountedSize fs (getBitwiseReadOffset ev1) (getBitwiseReadOffset ev2)).
  { rewrite Hbits. unfold assembled. cbn [bf_bitSize setFields setReversed].
    apply (fieldLoop_bitSize _ _ _ _ _ _ _ _ _ Hloop). now left. }
  apply resolveOrder_Normal_inv in Hres. destruct Hres as (_ & _ & _ & Horder).
  destruct (getAttributeByName "bitfield_order" self) as [attr |].
  - apply applyOrderAttribute_Normal_inv in Horder.
    destruct Horder as (d & evB & _ & Hargs & _ & Hpos & _).
    split; [now exists d, evB |]. split; [exact Hpos |].
    intros Hsmall. rewrite Hsize. unfold accountedSize.
    apply N.ltb_lt in Hpos. rewrite Hpos. now apply u64_small.
  - destruct Horder as (_ & -> & _). intros H1 H2.
    rewrite Hsize. unfold accountedSize. cbn [N.ltb N.compare].
    now apply totalBitSize_bitDistance.
Qed.

Lemma result_bit_size_witness :
  (exists bf bp prev rc fs ev1 bp2 pp ev2,
      [PatternBitfield
         (mkBitfield (mkOffset 0 0) 16 0 true little
            [PatternBitfieldField "a" 4 false (Some (mkOffset 0 0))] None)]
        = [PatternBitfield bf] /\
      resolveOrder reversedBitfield freshEvaluator = (Normal (bp, prev, rc, fs), ev1) /\
      fieldLoop fs (getBitwiseReadOffset ev1) (m_entries reversedBitfield) bp []
        (pushScope (bf_offset bp) ev1) = (Normal (bp2, pp), ev2) /\
      ((exists directionNode evB,
           argumentsEvaluateTo (orderAttribute 0 16) (updateRuntime 1 freshEvaluator)
             directionNode (ASTNodeLiteral (mkLiteral fs)) evB) /\
       0 < fs /\
       (fs < 2 ^ 64 -> bf_bitSize bf = fs)))
  /\
  (exists bf bp prev rc fs ev1 bp2 pp ev2,
      [PatternBitfield
         (mkBitfield (mkOffset 0 0) 8 0 false little
            [PatternBitfieldField "named" 4 false (Some (mkOffset 0 0))] None)]
        = [PatternBitfield bf] /\
      resolveOrder paddedBitfield freshEvaluator = (Normal (bp, prev, rc, fs), ev1) /\
      fieldLoop fs (getBitwiseReadOffset ev1) (m_entries paddedBitfield) bp []
        (pushScope (bf_offset bp) ev1) = (Normal (bp2, pp), ev2) /\
      (bitIndex (getBitwiseReadOffset ev1) < 2 ^ 64 ->
       bitIndex (getBitwiseReadOffset ev2) < 2 ^ 64 ->
       bf_bitSize bf =
         bitDistance (getBitwiseReadOffset ev1) (getBitwiseReadOffset ev2))).
Proof.
  split.
  - refine (result_bit_size noTypeAttributes reversedBitfield freshEvaluator
              [PatternBitfield
                 (mkBitfield (mkOffset 0 0) 16 0 true little
                    [PatternBitfieldField "a" 4 false (Some (mkOffset 0 0))] None)]
              (snd (createPatterns noTypeAttributes reversedBitfield freshEvaluator))
              _ _ _).
    + intros pattern ev pattern' ev' H. injection H as <- <-. split; reflexivity.
    + discriminate.
    + reflexivity.
  - refine (result_bit_size noTypeAttributes paddedBitfield freshEvaluator
              [PatternBitfield
                 (mkBitfield (mkOffset 0 0) 8 0 false little
                    [PatternBitfieldField "named" 4 false (Some (mkOffset 0 0))] None)]
              (snd (createPatterns noTypeAttributes paddedBitfield freshEvaluator))
              _ _ _).
    + intros pattern ev pattern' ev' H. injection H as <- <-. split; reflexivity.
    + discriminate.
    + reflexivity.
Defined.

(** ** Padding *)

Lemma setParentBitfield_isPadding parent p :
  isPadding (setParentBitfield parent p) = isPadding p.
Proof. destruct p; reflexivity. Qed.

Lemma setParentBitfield_isBitfieldMember parent p :
  isBitfieldMember (setParentBitfield parent p) = isBitfieldMember p.
Proof. destruct p; reflexivity. Qed.

(** No padding member is among the visible members. *)
Lemma visibleFields_no_padding parent potentialPatterns p :
  In p (visibleFields parent potentialPatterns) ->
  isBitfieldMember p = true -> isPadding p = false.
Proof.
  induction potentialPatterns as [| q rest IH]; cbn [visibleFields]; [contradiction |].
  destruct (isBitfieldMember q) eqn:Hmember.
  - destruct (isPadding (setParentBitfield parent q)) eqn:Hpad; cbn [negb].
    + exact IH.
    + intros [<- | Hin] Hp; [exact Hpad | now apply IH].
  - intros [<- | Hin] Hp; [congruence | now apply IH].
Qed.

(** A padding member is dropped, whatever follows it. *)
Lemma visibleFields_padding parent p rest :
  isBitfieldMember p = true -> isPadding p = true ->
  visibleFields parent (p :: rest) = visibleFields parent rest.
Proof.
  intros Hmember Hpad. cbn [visibleFields].
  now rewrite Hmember, setParentBitfield_isPadding, Hpad.
Qed.

(** A pattern that is not padding is kept. *)
Lemma visibleFields_named parent p :
  isPadding p = false ->
  List.length (visibleFields parent [p]) = 1%nat.
Proof.
  intros Hpad. cbn [visibleFields].
  destruct (isBitfieldMember p); [| reflexivity].
  now rewrite setParentBitfield_isPadding, Hpad.
Qed.

Lemma totalBitSize_forward initialPosition endPosition bits :
  bitIndex endPosition = bitIndex initialPosition + bits ->
  bitIndex endPosition < 2 ^ 64 ->
  totalBitSize initialPosition endPosition = bits.
Proof.
  intros H Hfits.
  rewrite totalBitSize_bitDistance; [| lia | exact Hfits].
  unfold bitDistance.
  destruct (N.ltb_spec (bitIndex endPosition) (bitIndex initialPosition)); lia.
Qed.

(** A padding field of 4 bits and a named field of 4 bits read from byte
    [2^61 - 1]: one visible member, and the size [2^64 - 8]. *)
Lemma padded_size_beyond_64_bits :
  exists bf ev',
    createPatterns noTypeAttributes paddedBitfield (evaluatorAt (2 ^ 61 - 1))
      = (Normal [PatternBitfield bf], ev') /\
    List.length (bf_fields bf) = 1%nat /\
    bf_bitSize bf = 2 ^ 64 - 8 /\
    bf_bitSize bf <> 8.
Proof.
  eexists. eexists. split; [vm_compute; reflexivity |].
  split; [reflexivity |]. split; [reflexivity | discriminate].
Qed.

(** C9, amended: a call that returns lists as visible members what the loop
    accumulated less the padding members, so that no bitfield member marked
    padding is among them, while the size is the one [setSize] recorded at
    the cursor the loop left, padding or not. And for a padding field of
    4 bits followed by a named field of 4 bits, with no order attribute,
    read where the cursor, as a number of bits, stays below [2^64], the size
    is 8 and there is one visible member, the named one. *)
Theorem padding_is_hidden_but_counted :
  (forall applyTypeAttributes self ev ps ev',
      keepsLayout applyTypeAttributes self ->
      createPatterns applyTypeAttributes self ev = (Normal ps, ev') ->
      exists bf bp prev rc fs ev1 bp2 pp ev2,
        ps = [PatternBitfield bf] /\
        resolveOrder self ev = (Normal (bp, prev, rc, fs), ev1) /\
        fieldLoop fs (getBitwiseReadOffset ev1) (m_entries self) bp []
          (pushScope (bf_offset bp) ev1) = (Normal (bp2, pp), ev2) /\
        bf_fields bf = visibleFields (bf_offset bp) pp /\
        (forall p, In p (bf_fields bf) ->
                   isBitfieldMember p = true -> isPadding p = false) /\
        (m_entries self <> [] ->
         bf_bitSize bf =
           accountedSize fs (getBitwiseReadOffset ev1) (getBitwiseReadOffset ev2)))
  /\
  (forall applyTypeAttributes self ev padding named pPadding pNamed evPadding evNamed,
      returns applyTypeAttributes self ->
      keepsLayout applyTypeAttributes self ->
      badAttribute self = None ->
      getAttributeByName "bitfield_order" self = None ->
      m_entries self = [padding; named] ->
      node_createPatterns padding
        (pushScope (getBitwiseReadOffset ev) (updateRuntime (bitfield_id self) ev))
        = (Normal [pPadding], evPadding) ->
      isBitfieldMember pPadding = true ->
      isPadding pPadding = true ->
      bitIndex (getBitwiseReadOffset evPadding) = bitIndex (getBitwiseReadOffset ev) + 4 ->
      stopsLoop evPadding = false ->
      node_createPatterns named evPadding = (Normal [pNamed], evNamed) ->
      isPadding pNamed = false ->
      bitIndex (getBitwiseReadOffset evNamed)
        = bitIndex (getBitwiseReadOffset evPadding) + 4 ->
      stopsLoop evNamed = false ->
      bitIndex (getBitwiseReadOffset evNamed) < 2 ^ 64 ->
      exists bf ev',
        createPatterns applyTypeAttributes self ev = (Normal [PatternBitfield bf], ev') /\
        bf_bitSize bf = 8 /\
        bf_fields bf = visibleFields (getBitwiseReadOffset ev) [pNamed] /\
        List.length (bf_fields bf) = 1%nat).
Proof.
  split.
  - intros apply self ev ps ev' Hlayout Hcall.
    apply createPatterns_Normal_inv in Hcall.
    destruct Hcall as (bp & prev & rc & fs & ev1 & bp2 & pp & ev2 & bf & ev3
                       & Hres & Hloop & Happly & -> & _).
    exists bf, bp, prev, rc, fs, ev1, bp2, pp, ev2.
    split; [reflexivity |]. split; [exact Hres |]. split; [exact Hloop |].
    destruct (Hlayout _ _ _ _ Happly) as [Hbits Hfields].
    assert (Hvisible : bf_fields bf = visibleFields (bf_offset bp) pp).
    { rewrite Hfields. unfold assembled. cbn [bf_fields setFields].
      now rewrite (fieldLoop_offset _ _ _ _ _ _ _ _ _ Hloop). }
    split; [exact Hvisible |]. split.
    + intros p Hin. rewrite Hvisible in Hin.
      now apply (visibleFields_no_padding _ _ _ Hin).
    + intros Hentries. rewrite Hbits. unfold assembled.
      cbn [bf_bitSize setFields setReversed].
      apply (fieldLoop_bitSize _ _ _ _ _ _ _ _ _ Hloop). now left.
  - intros apply self ev padding named pPadding pNamed evPadding evNamed
           Hreturns Hlayout Hbad Horder Hentries Hpadding Hmember Hpad Hbits1 Hgo1
           Hnamed Hvisible Hbits2 Hgo2 Hrange.
    pose proof (resolveOrder_no_attribute self ev Hbad Horder) as Hres.
    assert (Hloop :
      fieldLoop 0 (getBitwiseReadOffset (updateRuntime (bitfield_id self) ev))
        (m_entries self) (freshPattern ev) []
        (pushScope (bf_offset (freshPattern ev)) (updateRuntime (bitfield_id self) ev))
      = (Normal
           (setBitSize
              (accountedSize 0
                 (getBitwiseReadOffset (updateRuntime (bitfield_id self) ev))
                 (getBitwiseReadOffset evNamed))
              (setBitSize
                 (accountedSize 0
                    (getBitwiseReadOffset (updateRuntime (bitfield_id self) ev))
                    (getBitwiseReadOffset evPadding))
                 (freshPattern ev)),
            [pPadding; pNamed]), evNamed)).
    { rewrite Hentries.
      rewrite (fieldLoop_next 0 _ _ _ _ _ _ _ _ Hpadding (exceeds_unbounded _ _) Hgo1).
      rewrite (fieldLoop_next 0 _ _ _ _ _ _ _ _ Hnamed (exceeds_unbounded _ _) Hgo2).
      reflexivity. }
    match type of Hloop with
    | _ = (Normal (?b, ?l), ?e) =>
        destruct (Hreturns (assembled b l e)
                    (rewound false
                       (getBitwiseReadOffset (updateRuntime (bitfield_id self) ev)) e))
          as (bf & ev4 & Happly)
    end.
    exists bf, (popScope (setReadOrderReversed (readOrderIsReversed ev) ev4)).
    split; [exact (createPatterns_run _ _ _ _ _ _ _ _ _ _ _ _ _ Hres Hloop Happly) |].
    destruct (Hlayout _ _ _ _ Happly) as [Hsize Hfields].
    assert (Hlist : bf_fields bf = visibleFields (getBitwiseReadOffset ev) [pNamed]).
    { rewrite Hfields. unfold assembled. cbn [bf_fields setFields].
      exact (visibleFields_padding _ _ _ Hmember Hpad). }
    split; [| split; [exact Hlist |]].
    + rewrite Hsize. unfold assembled.
      cbn [bf_bitSize setFields setReversed setBitSize].
      unfold accountedSize. cbn [N.ltb N.compare].
      apply totalBitSize_forward; [| exact Hrange].
      change (getBitwiseReadOffset (updateRuntime (bitfield_id self) ev))
        with (getBitwiseReadOffset ev).
      rewrite Hbits2, Hbits1. lia.
    + rewrite Hlist. now apply visibleFields_named.
Qed.

Lemma padding_is_hidden_but_counted_witness :
  exists bf ev',
    createPatterns noTypeAttributes paddedBitfield freshEvaluator
      = (Normal [PatternBitfield bf], ev') /\
    bf_bitSize bf = 8 /\
    bf_fields bf = [PatternBitfieldField "named" 4 false (Some (mkOffset 0 0))] /\
    List.length (bf_fields bf) = 1%nat.
Proof.
  refine (proj2 padding_is_hidden_but_counted noTypeAttributes paddedBitfield
            freshEvaluator (fieldDecl 5 "" 4 true) (fieldDecl 6 "named" 4 false)
            (PatternBitfieldField "" 4 true None)
            (PatternBitfieldField "named" 4 false None)
            (snd (node_createPatterns (fieldDecl 5 "" 4 true)
                    (pushScope (mkOffset 0 0) (updateRuntime 1 freshEvaluator))))
            (snd (node_createPatterns (fieldDecl 6 "named" 4 false)
                    (snd (node_createPatterns (fieldDecl 5 "" 4 true)
                            (pushScope (mkOffset 0 0)
                               (updateRuntime 1 freshEvaluator))))))
            _ _ _ _ _ _ _ _ _ _ _ _ _ _ _).
  - intros pattern ev. exists pattern, ev. reflexivity.
  - intros pattern ev pattern' ev' H. injection H as <- <-. split; reflexivity.
  - reflexivity.
  - reflexivity.
  - reflexivity.
  - reflexivity.
  - reflexivity.
  - reflexivity.
  - reflexivity.
  - reflexivity.
  - reflexivity.
  - reflexivity.
  - reflexivity.
  - reflexivity.
  - reflexivity.
Defined.

(** ** The cursor after a change of read order *)

(** On a 16-bit bitfield read most significant bit first, called with the
    cursor at byte 0, the order attribute changes the read order and the call
    leaves the cursor at byte 2, not where the call found it. *)
Lemma cursor_not_rewound_to_call_start :
  exists bp prev fs ev1 ps ev',
    resolveOrder reversedBitfield freshEvaluator = (Normal (bp, prev, true, fs), ev1) /\
    createPatterns noTypeAttributes reversedBitfield freshEvaluator = (Normal ps, ev') /\
    getBitwiseReadOffset freshEvaluator = mkOffset 0 0 /\
    getBitwiseReadOffset ev' = mkOffset 2 0 /\
    getBitwiseReadOffset ev' <> getBitwiseReadOffset freshEvaluator.
Proof.
  do 6 eexists.
  split; [vm_compute; reflexivity |]. split; [vm_compute; reflexivity |].
  split; [reflexivity |]. split; [reflexivity | discriminate].
Qed.

(** C2, amended: when the order attribute changed the read order, a call
    that returns leaves the cursor where it was when the loop started, that
    is after the fixed-size window was reserved: at the position the
    evaluation of the attribute's arguments left, advanced by the fixed
    size. *)
Theorem cursor_reset_to_loop_start :
  forall applyTypeAttributes self ev bp prev fs ev1 ps ev',
    keepsCursor applyTypeAttributes self ->
    resolveOrder self ev = (Normal (bp, prev, true, fs), ev1) ->
    createPatterns applyTypeAttributes self ev = (Normal ps, ev') ->
    getBitwiseReadOffset ev' = getBitwiseReadOffset ev1 /\
    exists orderAttribute directionNode evB,
      getAttributeByName "bitfield_order" self = Some orderAttribute /\
      argumentsEvaluateTo orderAttribute (updateRuntime (bitfield_id self) ev)
        directionNode (ASTNodeLiteral (mkLiteral fs)) evB /\
      getBitwiseReadOffset ev1 = advance (getBitwiseReadOffset evB) fs.
Proof.
  intros apply self ev bp prev fs ev1 ps ev' Hcursor Hres Hcall.
  split.
  - apply createPatterns_Normal_inv in Hcall.
    destruct Hcall as (bp' & prev' & rc' & fs' & ev1' & bp2 & pp & ev2 & bf & ev3
                       & Hres' & _ & Happly & _ & ->).
    rewrite Hres in Hres'. injection Hres' as <- <- <- <- <-.
    pose proof (Hcursor (assembled bp2 pp ev2)
                  (rewound true (getBitwiseReadOffset ev1) ev2)) as Hc.
    rewrite Happly in Hc. exact Hc.
  - apply resolveOrder_Normal_inv in Hres. destruct Hres as (_ & _ & _ & Horder).
    destruct (getAttributeByName "bitfield_order" self) as [attr |].
    + apply applyOrderAttribute_Normal_inv in Horder.
      destruct Horder as (d & evB & _ & Hargs & _ & _ & ->).
      exists attr, d, evB. repeat split. exact Hargs.
    + destruct Horder as (Hrc & _). discriminate Hrc.
Qed.

Lemma cursor_reset_to_loop_start_witness :
  getBitwiseReadOffset
    (snd (createPatterns noTypeAttributes reversedBitfield freshEvaluator))
    = advance (mkOffset 0 0) 16.
Proof.
  refine (proj1 (cursor_reset_to_loop_start noTypeAttributes reversedBitfield
                   freshEvaluator (freshPattern freshEvaluator) false 16
                   (snd (resolveOrder reversedBitfield freshEvaluator))
                   [PatternBitfield
                      (mkBitfield (mkOffset 0 0) 16 0 true little
                         [PatternBitfieldField "a" 4 false (Some (mkOffset 0 0))]
                         None)]
                   (snd (createPatterns noTypeAttributes reversedBitfield freshEvaluator))
                   _ _ _)).
  - intros pattern ev. reflexivity.
  - reflexivity.
  - reflexivity.
Defined.

(** ** The reversed-flag on the exits of the call *)

(** C1: on a 4-bit bitfield read most significant bit first and holding an
    8-bit field, called with the natural read order, the call throws the size
    error for the field and leaves the reversed-flag set, where the call found
    it clear. *)
Theorem reversed_flag_left_set_by_size_error :
  exists ev',
    createPatterns noTypeAttributes overflowingBitfield (evaluatorAt 4) =
      (Thrown (mkError E0005 "Bitfield's fields exceeded the attribute-allotted size." 5),
       ev') /\
    readOrderIsReversed (evaluatorAt 4) = false /\
    readOrderIsReversed ev' = true.
Proof.
  eexists. split; [vm_compute; reflexivity |]. split; reflexivity.
Qed.

(** ** The order attribute inside the call *)

(** An error of the order attribute is the error of the call, which stops
    there: no scope is opened and no entry is evaluated. *)
Lemma createPatterns_order_Thrown applyTypeAttributes self orderAttribute ev e ev' :
  badAttribute self = None ->
  getAttributeByName "bitfield_order" self = Some orderAttribute ->
  applyOrderAttribute orderAttribute (freshPattern ev) (readOrderIsReversed ev)
    (updateRuntime (bitfield_id self) ev) = (Thrown e, ev') ->
  createPatterns applyTypeAttributes self ev = (Thrown e, ev').
Proof.
  intros Hbad Horder Hthrown.
  apply createPatterns_resolve_Thrown.
  rewrite (resolveOrder_attribute self ev orderAttribute Hbad Horder).
  now apply bind_Thrown.
Qed.

Lemma order_attribute_error_iff_witness :
  (exists e ev',
      applyOrderAttribute (orderAttribute 0 0) (freshPattern freshEvaluator) false
        freshEvaluator = (Thrown e, ev') /\ errCode e = E0008)
  <->
  (List.length (getArguments (orderAttribute 0 0)) <> 2%nat \/
   isDirection (ASTNodeLiteral (mkLiteral 0)) = false \/
   isPositiveSize (ASTNodeLiteral (mkLiteral 0)) = false).
Proof.
  apply (order_attribute_error_iff (orderAttribute 0 0) (freshPattern freshEvaluator)
           false freshEvaluator (ASTNodeLiteral (mkLiteral 0))
           (ASTNodeLiteral (mkLiteral 0)) freshEvaluator).
  exists freshEvaluator. split; reflexivity.
Defined.

(** A size of 0 is rejected, citing the size argument. *)
Example order_attribute_size_zero :
  applyOrderAttribute (orderAttribute 1 0) (freshPattern freshEvaluator) false
    freshEvaluator =
    (Thrown (mkError E0008 "Fixed size of a bitfield must be greater than zero." 4),
     freshEvaluator).
Proof. reflexivity. Qed.

(** Three arguments are rejected, citing the attribute. *)
Example order_attribute_three_arguments :
  applyOrderAttribute
    (mkAttribute 2 "bitfield_order" [literalExpr 3 0; literalExpr 4 16; literalExpr 9 1])
    (freshPattern freshEvaluator) false freshEvaluator =
    (Thrown (mkError E0008
               "Attribute 'bitfield_order' expected 2 parameters, received 3." 2),
     freshEvaluator).
Proof. reflexivity. Qed.

(** A direction of 2 is rejected, citing the direction argument. *)
Example order_attribute_direction_two :
  applyOrderAttribute (orderAttribute 2 16) (freshPattern freshEvaluator) false
    freshEvaluator =
    (Thrown (mkError E0008 "Invalid BitfieldOrder value 2." 3), freshEvaluator).
Proof. reflexivity. Qed.

(** The checks of the order attribute come before it touches the evaluator:
    when it throws on arguments that evaluated, the evaluator is the one the
    arguments left (and the one it was called on when the number of arguments
    is wrong). *)
Lemma applyOrderAttribute_Thrown_state attr bp prev ev d s ev2 e ev' :
  argumentsEvaluateTo attr ev d s ev2 ->
  applyOrderAttribute attr bp prev ev = (Thrown e, ev') ->
  ev' = if Nat.eqb (List.length (getArguments attr)) 2 then ev2 else ev.
Proof.
  unfold argumentsEvaluateTo.
  destruct (getArguments attr) as [| a0 [| a1 [| a2 rest]]] eqn:Hargs;
    try (intros _ H; unfold applyOrderAttribute in H; rewrite Hargs in H;
         injection H as _ <-; reflexivity).
  intros (evA & H0 & H1) H.
  rewrite (applyOrderAttribute_two a0 a1 attr bp prev ev d s evA ev2 Hargs H0 H1) in H.
  cbn [List.length Nat.eqb].
  destruct (isDirection d) eqn:Hd.
  2:{ destruct (orderOf_Thrown d a0 ev2 Hd) as (e0 & He & _).
      rewrite (bind_Thrown _ _ _ _ _ He) in H. now injection H as _ <-. }
  destruct (orderOf_Normal d a0 ev2 Hd) as [order Ho].
  rewrite (bind_Normal _ _ _ _ _ Ho) in H.
  destruct (isPositiveSize s) eqn:Hs.
  2:{ destruct (sizeOf_Thrown s a1 ev2 Hs) as (e0 & He & _).
      rewrite (bind_Thrown _ _ _ _ _ He) in H. now injection H as _ <-. }
  destruct (sizeOf_Normal s a1 ev2 Hs) as (size & Hsz & _ & _).
  rewrite (bind_Normal _ _ _ _ _ Hsz) in H. cbv zeta in H.
  destruct (negb _) in H; discriminate H.
Qed.

(** * Further properties *)

(** ** The scope stack *)

Lemma setSize_state fixedSize initialPosition bitfieldPattern node ev :
  snd (setSize fixedSize initialPosition bitfieldPattern node ev) = ev.
Proof.
  unfold setSize, bind, gets.
  destruct (0 <? fixedSize); [| reflexivity].
  destruct (fixedSize <? _); reflexivity.
Qed.

Lemma fieldLoop_scopes fixedSize initialPosition :
  forall entries bp pp ev,
    (forall entry, In entry entries -> keepsScopes (node_createPatterns entry)) ->
    m_scopes (snd (fieldLoop fixedSize initialPosition entries bp pp ev)) = m_scopes ev.
Proof.
  induction entries as [| entry rest IH]; intros bp pp ev Hkeep; [reflexivity |].
  cbn [fieldLoop].
  pose proof (Hkeep entry (or_introl eq_refl) ev) as Hentry.
  assert (Hrest : forall e, In e rest -> keepsScopes (node_createPatterns e))
    by (intros e He; apply Hkeep; now right).
  unfold bind at 1.
  destruct (node_createPatterns entry ev) as [[ps | e] ev1]; [| exact Hentry].
  cbn [snd] in Hentry.
  unfold bind at 1.
  pose proof (setSize_state fixedSize initialPosition bp entry ev1) as Hsize.
  destruct (setSize fixedSize initialPosition bp entry ev1) as [[bp1 | e] ev1'];
    cbn [snd] in Hsize; subst ev1'; [| exact Hentry].
  unfold bind at 1, gets at 1.
  destruct (getCurrentArrayIndex ev1).
  - rewrite (IH _ _ _ Hrest). exact Hentry.
  - unfold bind at 1, gets at 1.
    destruct (getCurrentControlFlowStatement ev1); try exact Hentry.
    rewrite (IH _ _ _ Hrest). exact Hentry.
Qed.

Lemma applyOrderAttribute_scopes attr bp prev ev :
  (forall arg, In arg (getArguments attr) -> keepsScopes (node_evaluate arg)) ->
  m_scopes (snd (applyOrderAttribute attr bp prev ev)) = m_scopes ev.
Proof.
  intros Hkeep. unfold applyOrderAttribute.
  destruct (getArguments attr) as [| a0 [| a1 [| a2 rest]]]; try reflexivity.
  pose proof (Hkeep a0 (or_introl eq_refl) ev) as H0.
  unfold bind at 1.
  destruct (node_evaluate a0 ev) as [[d | e] evA]; [| exact H0].
  cbn [snd] in H0.
  pose proof (Hkeep a1 (or_intror (or_introl eq_refl)) evA) as H1.
  unfold bind at 1.
  destruct (node_evaluate a1 evA) as [[s | e] evB]; cbn [snd] in H1;
    [| cbn [snd]; congruence].
  transitivity (m_scopes evB); [| congruence].
  destruct d as [ld |]; [| reflexivity]. cbn [orderOf].
  destruct (toUnsigned ld =? to_underlying MostToLeastSignificant);
    [| destruct (toUnsigned ld =? to_underlying LeastToMostSignificant);
       [| reflexivity]];
    (destruct s as [ls |]; [| reflexivity]; cbn [sizeOf bind ret];
     destruct (toUnsigned ls =? 0); [reflexivity |];
     cbv zeta; destruct (negb _); reflexivity).
Qed.

(** X1: the scope the call opens is closed on every exit. If the children:
    the entries and the arguments of the order attribute, and the attribute
    pipeline leave the stack of scopes as they find it, so does the call,
    whether it returns or throws. *)
Theorem createPatterns_scopes_balanced :
  forall applyTypeAttributes self ev,
    (forall entry, In entry (m_entries self) ->
                   keepsScopes (node_createPatterns entry)) ->
    (forall orderAttribute arg,
        getAttributeByName "bitfield_order" self = Some orderAttribute ->
        In arg (getArguments orderAttribute) -> keepsScopes (node_evaluate arg)) ->
    (forall pattern, keepsScopes (applyTypeAttributes self pattern)) ->
    m_scopes (snd (createPatterns applyTypeAttributes self ev)) = m_scopes ev.
Proof.
  intros apply self ev Hentries Hargs Happly.
  destruct (resolveOrder self ev) as [[[[[bp prev] rc] fs] | e] ev1] eqn:Hres.
  - assert (Hev1 : m_scopes ev1 = m_scopes ev).
    { pose proof (resolveOrder_Normal_inv self ev bp prev rc fs ev1 Hres)
        as (_ & _ & _ & Horder).
      destruct (getAttributeByName "bitfield_order" self) as [attr |] eqn:Hattr.
      - pose proof (applyOrderAttribute_scopes attr (freshPattern ev)
                      (readOrderIsReversed ev) (updateRuntime (bitfield_id self) ev)
                      (fun arg Hin => Hargs attr arg eq_refl Hin)) as Hs.
        rewrite Horder in Hs. exact Hs.
      - destruct Horder as (_ & _ & ->). reflexivity. }
    rewrite (createPatterns_resolved apply self ev bp prev rc fs ev1 Hres).
    unfold onScopeExit.
    destruct (fieldLoop fs (getBitwiseReadOffset ev1) (m_entries self) bp []
                (pushScope (bf_offset bp) ev1)) as [[[bp2 pp] | e] ev2] eqn:Hloop.
    + pose proof (fieldLoop_scopes fs (getBitwiseReadOffset ev1) (m_entries self)
                    bp [] (pushScope (bf_offset bp) ev1) Hentries) as Hs.
      rewrite Hloop in Hs. cbn [snd] in Hs.
      rewrite (evaluateFields_loop_Normal apply self bp prev rc fs _ bp2 pp ev2 Hloop).
      pose proof (Happly (assembled bp2 pp ev2)
                    (rewound rc (getBitwiseReadOffset (pushScope (bf_offset bp) ev1))
                       ev2)) as Ha.
      unfold bind at 1.
      destruct (apply self (assembled bp2 pp ev2) _) as [[bf | e] ev3];
        cbn [snd] in Ha; cbn [snd popScope m_scopes bind modify ret setReadOrderReversed];
        rewrite Ha; (destruct rc; cbn [rewound setBitwiseReadOffset m_scopes];
                     rewrite Hs; cbn [pushScope m_scopes tl]; exact Hev1).
    + pose proof (fieldLoop_scopes fs (getBitwiseReadOffset ev1) (m_entries self)
                    bp [] (pushScope (bf_offset bp) ev1) Hentries) as Hs.
      rewrite Hloop in Hs. cbn [snd] in Hs.
      rewrite (evaluateFields_loop_Thrown apply self bp prev rc fs _ e ev2 Hloop).
      cbn [snd popScope m_scopes]. rewrite Hs. cbn [pushScope m_scopes tl]. exact Hev1.
  - rewrite (createPatterns_resolve_Thrown apply self ev e ev1 Hres). cbn [snd].
    destruct (badAttribute self) as [bad |] eqn:Hbad.
    + rewrite (resolveOrder_badAttribute self bad ev Hbad) in Hres.
      injection Hres as _ <-. reflexivity.
    + destruct (getAttributeByName "bitfield_order" self) as [attr |] eqn:Hattr.
      * rewrite (resolveOrder_attribute self ev attr Hbad Hattr) in Hres.
        pose proof (applyOrderAttribute_scopes attr (freshPattern ev)
                      (readOrderIsReversed ev) (updateRuntime (bitfield_id self) ev)
                      (fun arg Hin => Hargs attr arg eq_refl Hin)) as Hs.
        unfold bind in Hres.
        destruct (applyOrderAttribute attr (freshPattern ev) (readOrderIsReversed ev)
                    (updateRuntime (bitfield_id self) ev)) as [[[rc fs] | e0] ev0];
          [discriminate Hres |].
        injection Hres as _ <-. exact Hs.
      * rewrite (resolveOrder_no_attribute self ev Hbad Hattr) in Hres.
        discriminate Hres.
Qed.

Lemma createPatterns_scopes_balanced_witness :
  m_scopes (snd (createPatterns noTypeAttributes overflowingBitfield (evaluatorAt 4)))
    = m_scopes (evaluatorAt 4).
Proof.
  apply (createPatterns_scopes_balanced noTypeAttributes overflowingBitfield
           (evaluatorAt 4)).
  - intros entry [<- | []] ev. reflexivity.
  - intros attr arg Hattr Hin. injection Hattr as <-.
    destruct Hin as [<- | [<- | []]]; intros ev; reflexivity.
  - intros pattern ev. reflexivity.
Defined.

(** ** The reversed-flag before the scope is opened *)

Lemma applyOrderAttribute_Thrown_reversed attr bp prev ev e ev' :
  (forall arg, In arg (getArguments attr) -> keepsReversed (node_evaluate arg)) ->
  applyOrderAttribute attr bp prev ev = (Thrown e, ev') ->
  readOrderIsReversed ev' = readOrderIsReversed ev.
Proof.
  intros Hkeep. unfold applyOrderAttribute.
  destruct (getArguments attr) as [| a0 [| a1 [| a2 rest]]];
    try (intros H; injection H as _ <-; reflexivity).
  pose proof (Hkeep a0 (or_introl eq_refl) ev) as H0.
  unfold bind at 1.
  destruct (node_evaluate a0 ev) as [[d | e0] evA]; cbn [snd] in H0;
    [| intros H; injection H as _ <-; exact H0].
  pose proof (Hkeep a1 (or_intror (or_introl eq_refl)) evA) as H1.
  unfold bind at 1.
  destruct (node_evaluate a1 evA) as [[s | e1] evB]; cbn [snd] in H1;
    [| intros H; injection H as _ <-; congruence].
  intros H.
  assert (Hstate : ev' = evB).
  { destruct d as [ld |]; cbn [orderOf] in H;
      [| unfold bind, throwError in H; now injection H as _ <-].
    destruct (toUnsigned ld =? to_underlying MostToLeastSignificant);
      [| destruct (toUnsigned ld =? to_underlying LeastToMostSignificant);
         [| unfold bind, throwError in H; now injection H as _ <-]];
      (destruct s as [ls |]; cbn [sizeOf bind ret] in H;
       [| unfold throwError in H; now injection H as _ <-];
       destruct (toUnsigned ls =? 0);
       [unfold throwError in H; now injection H as _ <- |];
       cbv zeta in H; destruct (negb _) in H; discriminate H). }
  subst ev'. congruence.
Qed.

(** X2: a call that returns leaves the reversed-flag as it found it, whatever
    the children and the attribute pipeline did to it. A call that throws
    before its scope is opened, for a deprecated attribute, a rejected order
    attribute or an argument that throws, does too, provided the evaluation
    of the arguments leaves the flag alone. *)
Theorem reversed_flag_on_return_and_early_errors :
  (forall applyTypeAttributes self ev ps ev',
      createPatterns applyTypeAttributes self ev = (Normal ps, ev') ->
      readOrderIsReversed ev' = readOrderIsReversed ev)
  /\
  (forall applyTypeAttributes self ev e ev',
      (forall orderAttribute arg,
          getAttributeByName "bitfield_order" self = Some orderAttribute ->
          In arg (getArguments orderAttribute) -> keepsReversed (node_evaluate arg)) ->
      resolveOrder self ev = (Thrown e, ev') ->
      createPatterns applyTypeAttributes self ev = (Thrown e, ev') /\
      readOrderIsReversed ev' = readOrderIsReversed ev).
Proof.
  split.
  - intros apply self ev ps ev' H.
    exact (createPatterns_Normal_reversed apply self ev ps ev' H).
  - intros apply self ev e ev' Hargs Hres.
    split; [exact (createPatterns_resolve_Thrown apply self ev e ev' Hres) |].
    destruct (badAttribute self) as [bad |] eqn:Hbad.
    + rewrite (resolveOrder_badAttribute self bad ev Hbad) in Hres.
      injection Hres as _ <-. reflexivity.
    + destruct (getAttributeByName "bitfield_order" self) as [attr |] eqn:Hattr.
      * rewrite (resolveOrder_attribute self ev attr Hbad Hattr) in Hres.
        unfold bind in Hres.
        destruct (applyOrderAttribute attr (freshPattern ev) (readOrderIsReversed ev)
                    (updateRuntime (bitfield_id self) ev))
          as [[[rc fs] | e0] ev0] eqn:Happly; [discriminate Hres |].
        injection Hres as _ <-.
        exact (applyOrderAttribute_Thrown_reversed attr _ _ _ _ _
                 (fun arg Hin => Hargs attr arg eq_refl Hin) Happly).
      * rewrite (resolveOrder_no_attribute self ev Hbad Hattr) in Hres.
        discriminate Hres.
Qed.

Lemma reversed_flag_on_return_and_early_errors_witness :
  readOrderIsReversed
    (snd (createPatterns noTypeAttributes
            (mkASTNodeBitfield 1 [orderAttribute 0 0] [fieldDecl 5 "a" 4 false])
            freshEvaluator))
    = readOrderIsReversed freshEvaluator.
Proof.
  refine (proj2 (proj2 reversed_flag_on_return_and_early_errors noTypeAttributes
                   (mkASTNodeBitfield 1 [orderAttribute 0 0] [fieldDecl 5 "a" 4 false])
                   freshEvaluator
                   (mkError E0008 "Fixed size of a bitfield must be greater than zero." 4)
                   (snd (createPatterns noTypeAttributes
                           (mkASTNodeBitfield 1 [orderAttribute 0 0]
                              [fieldDecl 5 "a" 4 false])
                           freshEvaluator))
                   _ _)).
  - intros attr arg Hattr Hin. injection Hattr as <-.
    destruct Hin as [<- | [<- | []]]; intros ev; reflexivity.
  - reflexivity.
Defined.

(** ** The order attribute: what is cited, and what comes first *)

Lemma applyOrderAttribute_rejects attr bp prev ev d s ev2 :
  argumentsEvaluateTo attr ev d s ev2 ->
  List.length (getArguments attr) <> 2%nat \/
    isDirection d = false \/ isPositiveSize s = false ->
  exists message,
    applyOrderAttribute attr bp prev ev =
      (Thrown (mkError E0008 message (rejectedNode attr d)),
       if Nat.eqb (List.length (getArguments attr)) 2 then ev2 else ev).
Proof.
  unfold argumentsEvaluateTo, rejectedNode.
  destruct (getArguments attr) as [| a0 [| a1 [| a2 rest]]] eqn:Hargs;
    try (intros _ _; unfold applyOrderAttribute; rewrite Hargs;
         eexists; reflexivity).
  intros (evA & H0 & H1) Hbad.
  rewrite (applyOrderAttribute_two a0 a1 attr bp prev ev d s evA ev2 Hargs H0 H1).
  cbn [List.length Nat.eqb].
  destruct (isDirection d) eqn:Hd.
  - destruct (orderOf_Normal d a0 ev2 Hd) as [order Ho].
    rewrite (bind_Normal _ _ _ _ _ Ho).
    assert (Hs : isPositiveSize s = false).
    { destruct Hbad as [Hlen | [Hdir | Hs]];
        [cbn in Hlen; congruence | discriminate Hdir | exact Hs]. }
    destruct (sizeOf_Thrown s a1 ev2 Hs) as ([code message node] & He & Hcode & Hnode).
    cbn in Hcode, Hnode. subst code node.
    exists message. now apply bind_Thrown.
  - destruct (orderOf_Thrown d a0 ev2 Hd) as ([code message node] & He & Hcode & Hnode).
    cbn in Hcode, Hnode. subst code node.
    exists message. now apply bind_Thrown.
Qed.

(** X3: when the order attribute is rejected, the call throws the attribute
    error citing the attribute if it has not two arguments, else the
    direction argument if that is no direction (whatever the size is), else
    the size argument; and it stops there: the evaluator is the one the
    arguments left (they are not evaluated when their number is wrong), so
    no scope was opened, no window reserved and no entry evaluated. *)
Theorem rejected_order_attribute_cites_and_stops :
  forall applyTypeAttributes self orderAttribute ev directionNode sizeNode ev2,
    badAttribute self = None ->
    getAttributeByName "bitfield_order" self = Some orderAttribute ->
    argumentsEvaluateTo orderAttribute (updateRuntime (bitfield_id self) ev)
      directionNode sizeNode ev2 ->
    List.length (getArguments orderAttribute) <> 2%nat \/
      isDirection directionNode = false \/ isPositiveSize sizeNode = false ->
    exists message,
      createPatterns applyTypeAttributes self ev =
        (Thrown (mkError E0008 message (rejectedNode orderAttribute directionNode)),
         if Nat.eqb (List.length (getArguments orderAttribute)) 2 then ev2
         else updateRuntime (bitfield_id self) ev).
Proof.
  intros apply self attr ev d s ev2 Hbad Hattr Hargs Hrejected.
  destruct (applyOrderAttribute_rejects attr (freshPattern ev) (readOrderIsReversed ev)
              _ d s ev2 Hargs Hrejected) as [message Hthrown].
  exists message.
  exact (createPatterns_order_Thrown apply self attr ev _ _ Hbad Hattr Hthrown).
Qed.

Lemma rejected_order_attribute_cites_and_stops_witness :
  exists message,
    createPatterns noTypeAttributes
      (mkASTNodeBitfield 1 [orderAttribute 7 0] [fieldDecl 5 "a" 4 false])
      freshEvaluator =
      (Thrown (mkError E0008 message 3), updateRuntime 1 freshEvaluator).
Proof.
  apply (rejected_order_attribute_cites_and_stops noTypeAttributes
           (mkASTNodeBitfield 1 [orderAttribute 7 0] [fieldDecl 5 "a" 4 false])
           (orderAttribute 7 0) freshEvaluator
           (ASTNodeLiteral (mkLiteral 7)) (ASTNodeLiteral (mkLiteral 0))
           (updateRuntime 1 freshEvaluator)).
  - reflexivity.
  - reflexivity.
  - exists (updateRuntime 1 freshEvaluator). split; reflexivity.
  - right. left. reflexivity.
Defined.

(** X4: both arguments of the order attribute are evaluated before either is
    checked. An error thrown by the first is the error of the call and the
    second is not evaluated; an error thrown by the second is the error of the
    call even when the first evaluated to no valid direction. *)
Theorem order_arguments_evaluated_before_checks :
  forall applyTypeAttributes self orderAttribute argument0 argument1 ev e,
    badAttribute self = None ->
    getAttributeByName "bitfield_order" self = Some orderAttribute ->
    getArguments orderAttribute = [argument0; argument1] ->
    (forall evA,
        node_evaluate argument0 (updateRuntime (bitfield_id self) ev)
          = (Thrown e, evA) ->
        createPatterns applyTypeAttributes self ev = (Thrown e, evA)) /\
    (forall directionNode evA evB,
        node_evaluate argument0 (updateRuntime (bitfield_id self) ev)
          = (Normal directionNode, evA) ->
        node_evaluate argument1 evA = (Thrown e, evB) ->
        createPatterns applyTypeAttributes self ev = (Thrown e, evB)).
Proof.
  intros apply self attr a0 a1 ev e Hbad Hattr Hargs. split.
  - intros evA H0.
    apply (createPatterns_order_Thrown apply self attr ev _ _ Hbad Hattr).
    unfold applyOrderAttribute. rewrite Hargs. now apply bind_Thrown.
  - intros d evA evB H0 H1.
    apply (createPatterns_order_Thrown apply self attr ev _ _ Hbad Hattr).
    unfold applyOrderAttribute. rewrite Hargs.
    rewrite (bind_Normal _ _ _ _ _ H0). now apply bind_Thrown.
Qed.

Lemma order_arguments_evaluated_before_checks_witness :
  createPatterns noTypeAttributes
    (mkASTNodeBitfield 1
       [mkAttribute 2 "bitfield_order"
          [literalExpr 3 7;
           mkASTNode 4 (ret [])
             (throwError 4%nat "Variable 'n' does not exist." 4)]]
       [fieldDecl 5 "a" 4 false])
    freshEvaluator =
    (Thrown (mkError 4%nat "Variable 'n' does not exist." 4),
     updateRuntime 1 freshEvaluator).
Proof.
  refine (proj2 (order_arguments_evaluated_before_checks noTypeAttributes
                   (mkASTNodeBitfield 1
                      [mkAttribute 2 "bitfield_order"
                         [literalExpr 3 7;
                          mkASTNode 4 (ret [])
                            (throwError 4%nat "Variable 'n' does not exist." 4)]]
                      [fieldDecl 5 "a" 4 false])
                   (mkAttribute 2 "bitfield_order"
                      [literalExpr 3 7;
                       mkASTNode 4 (ret [])
                         (throwError 4%nat "Variable 'n' does not exist." 4)])
                   (literalExpr 3 7)
                   (mkASTNode 4 (ret [])
                      (throwError 4%nat "Variable 'n' does not exist." 4))
                   freshEvaluator
                   (mkError 4%nat "Variable 'n' does not exist." 4)
                   _ _ _)
            (ASTNodeLiteral (mkLiteral 7)) (updateRuntime 1 freshEvaluator)
            (updateRuntime 1 freshEvaluator) _ _); reflexivity.
Defined.

(** ** Return, and signals inside an array *)

(** X5: when the entry after the entries [done] leaves a pending Return
    outside any array, the loop leaves right after that entry and keeps
    everything accumulated, and the signal is not reset: it is still pending
    when the call returns, for the enclosing evaluation to see. *)
Theorem return_keeps_accumulated_and_signal :
  forall applyTypeAttributes self ev done trigger rest bp prev rc fs ev1
         accumulated patterns ev3,
    returns applyTypeAttributes self ->
    keepsLayout applyTypeAttributes self ->
    keepsSignal applyTypeAttributes self ->
    reaches self ev done trigger rest bp prev rc fs ev1 accumulated patterns ev3 ->
    leavesOn CFReturn fs ev1 ev3 ->
    (exists bp2,
        fieldLoop fs (getBitwiseReadOffset ev1) (m_entries self) bp []
          (pushScope (bf_offset bp) ev1) =
          (Normal (bp2, (accumulated ++ patterns)%list), ev3)) /\
    (exists bf ev',
        createPatterns applyTypeAttributes self ev = (Normal [PatternBitfield bf], ev') /\
        bf_fields bf = visibleFields (bf_offset bp) (accumulated ++ patterns)%list /\
        getCurrentControlFlowStatement ev' = CFReturn).
Proof.
  intros apply self ev done trigger rest bp prev rc fs ev1 acc patterns ev3
         Hreturns Hlayout Hsignal Hrun Hleaves.
  destruct (createPatterns_leaves apply _ _ _ _ _ _ _ _ _ _ _ _ _ Hrun CFReturn Hleaves)
    as (bp2 & Hoffset & _ & Hloop & Hcall); [discriminate |].
  cbn [keptPatterns signalCleared] in Hloop, Hcall.
  split; [now exists bp2 |].
  destruct (Hreturns (assembled bp2 (acc ++ patterns)%list ev3)
              (rewound rc (getBitwiseReadOffset ev1) ev3))
    as (bf & ev4 & Happly).
  exists bf, (popScope (setReadOrderReversed prev ev4)).
  split; [exact (Hcall _ _ Happly) |]. split.
  - destruct (Hlayout _ _ _ _ Happly) as [_ Hfields]. rewrite Hfields.
    unfold assembled. cbn [bf_fields setFields]. now rewrite Hoffset.
  - pose proof (Hsignal (assembled bp2 (acc ++ patterns)%list ev3)
                  (rewound rc (getBitwiseReadOffset ev1) ev3)) as Hs.
    rewrite Happly, rewound_signal in Hs. cbn [snd] in Hs.
    destruct Hleaves as (_ & _ & Hpending). now rewrite Hpending in Hs.
Qed.

Lemma return_keeps_accumulated_and_signal_witness :
  exists bf ev',
    createPatterns noTypeAttributes
      (mkASTNodeBitfield 1 []
         [fieldDecl 5 "a" 4 false; controlFlowDecl 6 CFReturn; fieldDecl 7 "c" 4 false])
      freshEvaluator = (Normal [PatternBitfield bf], ev') /\
    bf_fields bf = [PatternBitfieldField "a" 4 false (Some (mkOffset 0 0))] /\
    getCurrentControlFlowStatement ev' = CFReturn.
Proof.
  refine (proj2 (return_keeps_accumulated_and_signal noTypeAttributes
                   (mkASTNodeBitfield 1 []
                      [fieldDecl 5 "a" 4 false; controlFlowDecl 6 CFReturn;
                       fieldDecl 7 "c" 4 false])
                   freshEvaluator [fieldDecl 5 "a" 4 false]
                   (controlFlowDecl 6 CFReturn) [fieldDecl 7 "c" 4 false]
                   (freshPattern freshEvaluator) false false 0
                   (updateRuntime 1 freshEvaluator)
                   [PatternBitfieldField "a" 4 false None] []
                   (snd (node_createPatterns (controlFlowDecl 6 CFReturn)
                           (snd (node_createPatterns (fieldDecl 5 "a" 4 false)
                                   (pushScope (mkOffset 0 0)
                                      (updateRuntime 1 freshEvaluator))))))
                   _ _ _ _ _)).
  - intros pattern ev. exists pattern, ev. reflexivity.
  - intros pattern ev pattern' ev' H. injection H as <- <-. split; reflexivity.
  - intros pattern ev. reflexivity.
  - split; [reflexivity |]. split; [reflexivity |].
    eexists. eexists. split; reflexivity.
  - repeat split; reflexivity.
Defined.

(** X6: inside an array the loop does not look at the pending signal. After
    an entry that fits the declared size, whatever signal is pending, the loop
    goes on with the next entry, keeps what it accumulated and leaves the
    signal as it is. *)
Theorem signals_ignored_inside_array :
  forall self ev done trigger rest bp prev rc fs ev1 accumulated patterns ev3 index,
    reaches self ev done trigger rest bp prev rc fs ev1 accumulated patterns ev3 ->
    exceeds fs (getBitwiseReadOffset ev1) (getBitwiseReadOffset ev3) = false ->
    getCurrentArrayIndex ev3 = Some index ->
    exists bp2,
      bf_bitSize bp2 =
        accountedSize fs (getBitwiseReadOffset ev1) (getBitwiseReadOffset ev3) /\
      fieldLoop fs (getBitwiseReadOffset ev1) (m_entries self) bp []
        (pushScope (bf_offset bp) ev1) =
      fieldLoop fs (getBitwiseReadOffset ev1) rest bp2
        (accumulated ++ patterns)%list ev3.
Proof.
  intros self ev done trigger rest bp prev rc fs ev1 acc patterns ev3 index
         (Hres & Hentries & bp1 & ev2 & Hdone & Htrigger) Hfits Harray.
  eexists. split; [| rewrite Hentries, (fieldLoop_app _ _ _ _ _ _ _ _ _ _ Hdone);
                     apply (fieldLoop_next _ _ _ _ _ _ _ _ _ Htrigger Hfits);
                     unfold stopsLoop; now rewrite Harray].
  reflexivity.
Qed.

Lemma signals_ignored_inside_array_witness :
  exists bp2,
    bf_bitSize bp2 = 0 /\
    fieldLoop 0 (mkOffset 0 0)
      [controlFlowDecl 6 CFBreak; fieldDecl 7 "c" 4 false]
      (freshPattern freshEvaluator) []
      (pushScope (mkOffset 0 0)
         (updateRuntime 1
            (mkEvaluator (mkOffset 0 0) false little 0 [] (Some 2) CFNone []))) =
    fieldLoop 0 (mkOffset 0 0) [fieldDecl 7 "c" 4 false] bp2 []
      (setCurrentControlFlowStatement CFBreak
         (pushScope (mkOffset 0 0)
            (updateRuntime 1
               (mkEvaluator (mkOffset 0 0) false little 0 [] (Some 2) CFNone [])))).
Proof.
  refine (signals_ignored_inside_array
            (mkASTNodeBitfield 1 []
               [controlFlowDecl 6 CFBreak; fieldDecl 7 "c" 4 false])
            (mkEvaluator (mkOffset 0 0) false little 0 [] (Some 2) CFNone [])
            [] (controlFlowDecl 6 CFBreak) [fieldDecl 7 "c" 4 false]
            (freshPattern freshEvaluator) false false 0
            (updateRuntime 1
               (mkEvaluator (mkOffset 0 0) false little 0 [] (Some 2) CFNone []))
            [] []
            (setCurrentControlFlowStatement CFBreak
               (pushScope (mkOffset 0 0)
                  (updateRuntime 1
                     (mkEvaluator (mkOffset 0 0) false little 0 [] (Some 2)
                        CFNone []))))
            2 _ _ _).
  - split; [reflexivity |]. split; [reflexivity |].
    eexists. eexists. split; reflexivity.
  - reflexivity.
  - reflexivity.
Defined.

(** ** Exceptions of the children *)

(** X7: an exception thrown by an entry is the exception of the call. The
    call lets it through once the scope is closed, with the evaluator
    otherwise as the entry left it: no later entry is evaluated, the cursor
    is not rewound and the reversed-flag is not restored. *)
Theorem entry_exception_propagates :
  forall applyTypeAttributes self ev done trigger rest bp prev rc fs ev1
         bp1 accumulated ev2 e ev3,
    resolveOrder self ev = (Normal (bp, prev, rc, fs), ev1) ->
    m_entries self = (done ++ trigger :: rest)%list ->
    runsThrough fs (getBitwiseReadOffset ev1) done bp []
      (pushScope (bf_offset bp) ev1) = Some (bp1, accumulated, ev2) ->
    node_createPatterns trigger ev2 = (Thrown e, ev3) ->
    createPatterns applyTypeAttributes self ev = (Thrown e, popScope ev3).
Proof.
  intros apply self ev done trigger rest bp prev rc fs ev1 bp1 acc ev2 e ev3
         Hres Hentries Hdone Htrigger.
  apply (createPatterns_loop_Thrown apply self ev bp prev rc fs ev1 e ev3 Hres).
  rewrite Hentries, (fieldLoop_app _ _ _ _ _ _ _ _ _ _ Hdone).
  cbn [fieldLoop]. now apply bind_Thrown.
Qed.

Lemma entry_exception_propagates_witness :
  createPatterns noTypeAttributes
    (mkASTNodeBitfield 1 [orderAttribute 0 16]
       [fieldDecl 5 "a" 4 false;
        mkASTNode 6 (throwError 3%nat "Division by zero." 6) (ret ASTNodeVoid);
        fieldDecl 7 "c" 4 false])
    (evaluatorAt 4) =
    (Thrown (mkError 3%nat "Division by zero." 6),
     mkEvaluator (mkOffset 5 4) true little 0 [] None CFNone [1]).
Proof.
  refine (entry_exception_propagates noTypeAttributes
            (mkASTNodeBitfield 1 [orderAttribute 0 16]
               [fieldDecl 5 "a" 4 false;
                mkASTNode 6 (throwError 3%nat "Division by zero." 6) (ret ASTNodeVoid);
                fieldDecl 7 "c" 4 false])
            (evaluatorAt 4) [fieldDecl 5 "a" 4 false]
            (mkASTNode 6 (throwError 3%nat "Division by zero." 6) (ret ASTNodeVoid))
            [fieldDecl 7 "c" 4 false]
            (freshPattern (evaluatorAt 4)) false true 16
            (mkEvaluator (mkOffset 6 0) true little 0 [] None CFNone [1])
            (setBitSize 16 (freshPattern (evaluatorAt 4)))
            [PatternBitfieldField "a" 4 false None]
            (mkEvaluator (mkOffset 5 4) true little 0 [mkScope (mkOffset 4 0)]
               None CFNone [1])
            (mkError 3%nat "Division by zero." 6)
            (mkEvaluator (mkOffset 5 4) true little 0 [mkScope (mkOffset 4 0)]
               None CFNone [1])
            _ _ _ _); reflexivity.
Defined.

(** X8: an exception thrown by the attribute pipeline is the exception of
    the call, let through once the scope is closed: the reversed-flag is not
    restored on that exit either. *)
Theorem pipeline_exception_propagates :
  forall applyTypeAttributes self ev bp prev rc fs ev1 bp2 pp ev2 e ev3,
    resolveOrder self ev = (Normal (bp, prev, rc, fs), ev1) ->
    fieldLoop fs (getBitwiseReadOffset ev1) (m_entries self) bp []
      (pushScope (bf_offset bp) ev1) = (Normal (bp2, pp), ev2) ->
    applyTypeAttributes self (assembled bp2 pp ev2)
      (rewound rc (getBitwiseReadOffset ev1) ev2) = (Thrown e, ev3) ->
    createPatterns applyTypeAttributes self ev = (Thrown e, popScope ev3).
Proof.
  intros apply self ev bp prev rc fs ev1 bp2 pp ev2 e ev3 Hres Hloop Happly.
  rewrite (createPatterns_resolved apply self ev bp prev rc fs ev1 Hres).
  apply onScopeExit_eq.
  rewrite (evaluateFields_loop_Normal apply self bp prev rc fs _ bp2 pp ev2 Hloop).
  change (getBitwiseReadOffset (pushScope (bf_offset bp) ev1))
    with (getBitwiseReadOffset ev1).
  now apply bind_Thrown.
Qed.

Lemma pipeline_exception_propagates_witness :
  createPatterns
    (fun self pattern => throwError 2%nat "Invalid attribute." (bitfield_id self))
    reversedBitfield freshEvaluator =
    (Thrown (mkError 2%nat "Invalid attribute." 1),
     mkEvaluator (mkOffset 2 0) true little 0 [] None CFNone [1]).
Proof.
  refine (pipeline_exception_propagates
            (fun self pattern => throwError 2%nat "Invalid attribute." (bitfield_id self))
            reversedBitfield freshEvaluator (freshPattern freshEvaluator) false true 16
            (mkEvaluator (mkOffset 2 0) true little 0 [] None CFNone [1])
            (setBitSize 16 (freshPattern freshEvaluator))
            [PatternBitfieldField "a" 4 false None]
            (mkEvaluator (mkOffset 1 4) true little 0 [mkScope (mkOffset 0 0)]
               None CFNone [1])
            (mkError 2%nat "Invalid attribute." 1)
            (mkEvaluator (mkOffset 2 0) true little 0 [mkScope (mkOffset 0 0)]
               None CFNone [1])
            _ _ _); reflexivity.
Defined.

(** ** A declaration without entries *)

(** X9: a declaration without entries yields a pattern of size 0 with no
    member, also when its order attribute declares a fixed size: the size is
    only recorded after an entry. *)
Theorem empty_declaration_has_size_zero :
  forall applyTypeAttributes self ev ps ev',
    keepsLayout applyTypeAttributes self ->
    m_entries self = [] ->
    createPatterns applyTypeAttributes self ev = (Normal ps, ev') ->
    exists bf,
      ps = [PatternBitfield bf] /\ bf_bitSize bf = 0 /\ bf_fields bf = [].
Proof.
  intros apply self ev ps ev' Hlayout Hempty Hcall.
  apply createPatterns_Normal_inv in Hcall.
  destruct Hcall as (bp & prev & rc & fs & ev1 & bp2 & pp & ev2 & bf & ev3
                     & Hres & Hloop & Happly & -> & _).
  exists bf. split; [reflexivity |].
  rewrite Hempty in Hloop. cbn in Hloop. injection Hloop as <- <- <-.
  destruct (Hlayout _ _ _ _ Happly) as [Hbits Hfields].
  rewrite Hbits, Hfields.
  apply resolveOrder_Normal_inv in Hres. destruct Hres as (_ & -> & _).
  split; reflexivity.
Qed.

Lemma empty_declaration_has_size_zero_witness :
  exists bf,
    [PatternBitfield (mkBitfield (mkOffset 0 0) 0 0 true little [] None)]
      = [PatternBitfield bf] /\
    bf_bitSize bf = 0 /\ bf_fields bf = [].
Proof.
  refine (empty_declaration_has_size_zero noTypeAttributes
            (mkASTNodeBitfield 1 [orderAttribute 0 16] []) freshEvaluator
            [PatternBitfield (mkBitfield (mkOffset 0 0) 0 0 true little [] None)]
            (snd (createPatterns noTypeAttributes
                    (mkASTNodeBitfield 1 [orderAttribute 0 16] []) freshEvaluator))
            _ _ _).
  - intros pattern ev pattern' ev' H. injection H as <- <-. split; reflexivity.
  - reflexivity.
  - reflexivity.
Defined.

(** ** What the loop guarantees and what it can throw *)




(** X11: the loop throws nothing of its own but the size error. An exception
    leaving the loop was thrown by one of the entries, or it is the size error
    citing one of the entries, which had returned; and the size error leaves
    the loop only when a fixed size is declared and the running total exceeds
    it. *)
Theorem loop_exception_provenance :
  forall fixedSize initialPosition entries bp pp ev e ev',
    fieldLoop fixedSize initialPosition entries bp pp ev = (Thrown e, ev') ->
    exists entry ev0,
      In entry entries /\
      (node_createPatterns entry ev0 = (Thrown e, ev') \/
       (exists patterns,
           node_createPatterns entry ev0 = (Normal patterns, ev') /\
           e = sizeError entry /\
           0 < fixedSize /\
           fixedSize < totalBitSize initialPosition (getBitwiseReadOffset ev'))).
Proof.
  intros fixedSize initialPosition.
  induction entries as [| entry rest IH]; intros bp pp ev e ev' Hloop.
  - discriminate Hloop.
  - cbn [fieldLoop] in Hloop. unfold bind at 1 in Hloop.
    destruct (node_createPatterns entry ev) as [[ps | e0] ev1] eqn:Hentry.
    2:{ injection Hloop as <- <-. exists entry, ev.
        split; [now left | now left]. }
    unfold bind at 1 in Hloop.
    destruct (exceeds fixedSize initialPosition (getBitwiseReadOffset ev1)) eqn:Hfits.
    + rewrite (setSize_exceeds _ _ _ _ _ Hfits) in Hloop.
      injection Hloop as <- <-. exists entry, ev. split; [now left |]. right.
      exists ps. split; [exact Hentry |]. split; [reflexivity |].
      unfold exceeds in Hfits. apply andb_true_iff in Hfits.
      destruct Hfits as [H0 H1]. split; now apply N.ltb_lt.
    + rewrite (setSize_fits _ _ _ _ _ Hfits) in Hloop.
      assert (Hrest : forall bp pp,
                 fieldLoop fixedSize initialPosition rest bp pp ev1 = (Thrown e, ev') ->
                 exists entry0 ev0,
                   In entry0 (entry :: rest) /\
                   (node_createPatterns entry0 ev0 = (Thrown e, ev') \/
                    (exists patterns,
                        node_createPatterns entry0 ev0 = (Normal patterns, ev') /\
                        e = sizeError entry0 /\
                        0 < fixedSize /\
                        fixedSize
                          < totalBitSize initialPosition (getBitwiseReadOffset ev')))).
      { intros bp' pp' H. destruct (IH _ _ _ _ _ H) as (entry0 & ev0 & Hin & Hcase).
        exists entry0, ev0. split; [now right | exact Hcase]. }
      unfold bind at 1, gets at 1 in Hloop.
      destruct (getCurrentArrayIndex ev1); [now apply Hrest in Hloop |].
      unfold bind at 1, gets at 1 in Hloop.
      destruct (getCurrentControlFlowStatement ev1);
        [now apply Hrest in Hloop | discriminate Hloop
         | discriminate Hloop | discriminate Hloop].
Qed.

Lemma loop_exception_provenance_witness :
  exists entry ev0,
    In entry [fieldDecl 5 "a" 8 false] /\
    (node_createPatterns entry ev0 =
       (Thrown (sizeError (fieldDecl 5 "a" 8 false)),
        mkEvaluator (mkOffset 3 4) true little 0 [] None CFNone [])
     \/
     (exists patterns,
         node_createPatterns entry ev0 =
           (Normal patterns,
            mkEvaluator (mkOffset 3 4) true little 0 [] None CFNone []) /\
         sizeError (fieldDecl 5 "a" 8 false) = sizeError entry /\
         0 < 4 /\
         4 < totalBitSize (mkOffset 4 4)
               (getBitwiseReadOffset
                  (mkEvaluator (mkOffset 3 4) true little 0 [] None CFNone [])))).
Proof.
  refine (loop_exception_provenance 4 (mkOffset 4 4) [fieldDecl 5 "a" 8 false]
            (freshPattern freshEvaluator) []
            (mkEvaluator (mkOffset 4 4) true little 0 [] None CFNone [])
            (sizeError (fieldDecl 5 "a" 8 false))
            (mkEvaluator (mkOffset 3 4) true little 0 [] None CFNone []) _).
  reflexivity.
Defined.

(** ** Adding entries *)

(** Once the loop has left, by a signal or by an exception, the entries that
    follow are of no consequence. *)
Lemma fieldLoop_left fixedSize initialPosition more :
  forall entries bp pp ev,
    runsThrough fixedSize initialPosition entries bp pp ev = None ->
    fieldLoop fixedSize initialPosition (entries ++ more)%list bp pp ev =
    fieldLoop fixedSize initialPosition entries bp pp ev.
Proof.
  induction entries as [| entry rest IH]; intros bp pp ev Hrun.
  - discriminate Hrun.
  - cbn [runsThrough] in Hrun. rewrite <- app_comm_cons.
    destruct (node_createPatterns entry ev) as [[ps | e] ev1] eqn:Hentry.
    2:{ cbn [fieldLoop]. now rewrite !(bind_Thrown _ _ _ _ _ Hentry). }
    destruct (exceeds fixedSize initialPosition (getBitwiseReadOffset ev1)) eqn:Hfits.
    { now rewrite !(fieldLoop_exceeds _ _ _ _ _ _ _ _ _ Hentry Hfits). }
    cbn [orb] in Hrun.
    destruct (stopsLoop ev1) eqn:Hstop.
    + unfold stopsLoop in Hstop.
      destruct (getCurrentArrayIndex ev1) eqn:Harray; [discriminate Hstop |].
      destruct (getCurrentControlFlowStatement ev1) eqn:Hsignal.
      * discriminate Hstop.
      * now rewrite !(fieldLoop_Continue _ _ _ _ _ _ _ _ _ Hentry Hfits Harray Hsignal).
      * now rewrite !(fieldLoop_Break _ _ _ _ _ _ _ _ _ Hentry Hfits Harray Hsignal).
      * now rewrite !(fieldLoop_Return _ _ _ _ _ _ _ _ _ Hentry Hfits Harray Hsignal).
    + rewrite !(fieldLoop_next _ _ _ _ _ _ _ _ _ Hentry Hfits Hstop).
      now apply IH.
Qed.

(** X12: an entry added with [addEntry] is the last one evaluated. If the
    loop over the entries there were runs through them, it goes on with the
    new entry from where they left; if it leaves earlier, by a signal or an
    exception, the new entry is never evaluated and the loop yields what it
    yielded without it. *)
Theorem added_entry_is_evaluated_last :
  forall fixedSize initialPosition entry self bp pp ev,
    getEntries (addEntry entry self) = (getEntries self ++ [entry])%list /\
    match runsThrough fixedSize initialPosition (getEntries self) bp pp ev with
    | Some (bp1, accumulated, ev1) =>
        fieldLoop fixedSize initialPosition (getEntries (addEntry entry self)) bp pp ev =
        fieldLoop fixedSize initialPosition [entry] bp1 accumulated ev1
    | None =>
        fieldLoop fixedSize initialPosition (getEntries (addEntry entry self)) bp pp ev =
        fieldLoop fixedSize initialPosition (getEntries self) bp pp ev
    end.
Proof.
  intros fixedSize initialPosition entry self bp pp ev.
  split; [reflexivity |].
  change (getEntries (addEntry entry self)) with (getEntries self ++ [entry])%list.
  destruct (runsThrough fixedSize initialPosition (getEntries self) bp pp ev)
    as [[[bp1 acc] ev1] |] eqn:Hrun.
  - exact (fieldLoop_app _ _ _ _ _ _ _ _ _ _ Hrun).
  - exact (fieldLoop_left _ _ _ _ _ _ _ Hrun).
Qed.

(** ** The visible members *)

(** X13: every bitfield member among the visible members refers back to the
    bitfield pattern it was assembled for. *)
Theorem visible_members_have_parent :
  forall parent potentialPatterns p,
    In p (visibleFields parent potentialPatterns) ->
    isBitfieldMember p = true ->
    getParentBitfield p = Some parent.
Proof.
  intros parent. induction potentialPatterns as [| q rest IH]; intros p;
    cbn [visibleFields]; [contradiction |].
  destruct (isBitfieldMember q) eqn:Hmember.
  - destruct (negb (isPadding (setParentBitfield parent q))).
    + intros [<- | Hin] Hp; [| now apply IH].
      destruct q; [reflexivity | reflexivity | discriminate Hmember].
    + exact (IH p).
  - intros [<- | Hin] Hp; [congruence | now apply IH].
Qed.

Lemma visible_members_have_parent_witness :
  getParentBitfield (PatternBitfieldField "named" 4 false (Some (mkOffset 0 0)))
    = Some (mkOffset 0 0).
Proof.
  apply (visible_members_have_parent (mkOffset 0 0)
           [PatternBitfieldField "" 4 true None;
            PatternBitfieldField "named" 4 false None]
           (PatternBitfieldField "named" 4 false (Some (mkOffset 0 0)))).
  - simpl. left. reflexivity.
  - reflexivity.
Defined.

(** X14: the visible members are the accumulated patterns in their order,
    less the padding members and nothing else, each member with its parent
    set and each other pattern as it was; so the visible members of two
    accumulators put end to end are the two lists of visible members put end
    to end. *)
Theorem visible_members_are_filtered_in_order :
  forall parent,
    (forall potentialPatterns,
        visibleFields parent potentialPatterns =
        map (adopted parent)
          (filter (fun p => negb (isPaddingMember p)) potentialPatterns)) /\
    (forall first second,
        visibleFields parent (first ++ second)%list =
        (visibleFields parent first ++ visibleFields parent second)%list).
Proof.
  intros parent.
  assert (Hfilter : forall potentialPatterns,
             visibleFields parent potentialPatterns =
             map (adopted parent)
               (filter (fun p => negb (isPaddingMember p)) potentialPatterns)).
  { induction potentialPatterns as [| q rest IH]; [reflexivity |].
    unfold isPaddingMember, adopted in *.
    cbn [visibleFields filter]. rewrite setParentBitfield_isPadding.
    destruct (isBitfieldMember q) eqn:Hmember; cbn [andb].
    - destruct (isPadding q); cbn [negb map].
      + exact IH.
      + rewrite Hmember. now rewrite IH.
    - cbn [negb map]. rewrite Hmember. now rewrite IH. }
  split; [exact Hfilter |].
  intros first second.
  now rewrite !Hfilter, filter_app, map_app.
Qed.

(** ** The distance in bits *)

(** X15: the distance between two cursor positions, computed in 64-bit
    arithmetic, does not depend on the direction: it is the same from either
    end, and it is 0 exactly between positions whose numbers of bits agree
    modulo [2^64]. Where both numbers of bits are below [2^64] it is their
    absolute difference, and 0 exactly between positions that denote the same
    bit. *)
Theorem totalBitSize_symmetric :
  forall a b,
    totalBitSize a b = totalBitSize b a /\
    (totalBitSize a b = 0 <-> u64 (bitIndex a) = u64 (bitIndex b)) /\
    (bitIndex a < 2 ^ 64 -> bitIndex b < 2 ^ 64 ->
     totalBitSize a b = bitDistance a b /\
     (totalBitSize a b = 0 <-> bitIndex a = bitIndex b)).
Proof.
  intros a b.
  assert (Hsym : forall x y,
             (if y <? x then x - y else y - x) = (if x <? y then y - x else x - y) /\
             ((if y <? x then x - y else y - x) = 0 <-> x = y)).
  { intros x y. destruct (N.ltb_spec y x); destruct (N.ltb_spec x y);
      split; try split; lia. }
  split; [| split].
  - unfold totalBitSize. fold (bitIndex a). fold (bitIndex b).
    exact (proj1 (Hsym (u64 (bitIndex a)) (u64 (bitIndex b)))).
  - unfold totalBitSize. fold (bitIndex a). fold (bitIndex b).
    exact (proj2 (Hsym (u64 (bitIndex a)) (u64 (bitIndex b)))).
  - intros Ha Hb. rewrite (totalBitSize_bitDistance a b Ha Hb).
    split; [reflexivity |]. unfold bitDistance.
    exact (proj2 (Hsym (bitIndex a) (bitIndex b))).
Qed.

(** ** Which deprecated attribute is named *)

(** X16: a declaration carrying [left_to_right] is rejected naming
    [left_to_right], wherever that attribute stands among the others and also
    when [right_to_left] is present, before it or after it. *)
Theorem left_to_right_is_named_first :
  forall applyTypeAttributes self a ev,
    In a (m_attributes self) ->
    getAttribute a = "left_to_right" ->
    exists bad,
      In bad (m_attributes self) /\
      createPatterns applyTypeAttributes self ev =
        (Thrown (mkError E0008 "Attribute 'left_to_right' is no longer supported."
                   (attr_id bad)),
         updateRuntime (bitfield_id self) ev).
Proof.
  intros apply self a ev Hin Hname.
  destruct (getAttributeByName_present _ _ _ Hin Hname) as [bad Hfound].
  destruct (getAttributeByName_Some _ _ _ Hfound) as [Hbin Hbname].
  exists bad. split; [exact Hbin |].
  apply createPatterns_resolve_Thrown.
  assert (Hbad : badAttribute self = Some bad)
    by (unfold badAttribute; now rewrite Hfound).
  rewrite (resolveOrder_badAttribute self bad ev Hbad), Hbname. reflexivity.
Qed.

Lemma left_to_right_is_named_first_witness :
  exists bad,
    In bad [mkAttribute 8 "right_to_left" []; mkAttribute 9 "left_to_right" []] /\
    createPatterns noTypeAttributes
      (mkASTNodeBitfield 1
         [mkAttribute 8 "right_to_left" []; mkAttribute 9 "left_to_right" []] [])
      freshEvaluator =
      (Thrown (mkError E0008 "Attribute 'left_to_right' is no longer supported."
                 (attr_id bad)),
       updateRuntime 1 freshEvaluator).
Proof.
  apply (left_to_right_is_named_first noTypeAttributes
           (mkASTNodeBitfield 1
              [mkAttribute 8 "right_to_left" []; mkAttribute 9 "left_to_right" []] [])
           (mkAttribute 9 "left_to_right" []) freshEvaluator).
  - simpl. right. left. reflexivity.
  - reflexivity.
Defined.

(** ** The read order in force while the entries are evaluated *)

Lemma applyOrderAttribute_Normal_flag attr bp ev rc fs ev1 :
  (forall arg, In arg (getArguments attr) -> keepsReversed (node_evaluate arg)) ->
  applyOrderAttribute attr bp (readOrderIsReversed ev) ev = (Normal (rc, fs), ev1) ->
  exists direction sizeNode evB,
    argumentsEvaluateTo attr ev (ASTNodeLiteral direction) sizeNode evB /\
    readOrderIsReversed ev1 =
      xorb (toUnsigned direction =? 0) (Endian_eqb (getEndian bp) big) /\
    rc = negb (Bool.eqb (readOrderIsReversed ev) (readOrderIsReversed ev1)).
Proof.
  intros Hkeep H. unfold argumentsEvaluateTo.
  destruct (getArguments attr) as [| a0 [| a1 [| a2 rest]]] eqn:Hargs;
    try (unfold applyOrderAttribute in H; rewrite Hargs in H; discriminate H).
  pose proof (Hkeep a0 (or_introl eq_refl) ev) as K0.
  destruct (node_evaluate a0 ev) as [[d | e] evA] eqn:H0.
  2:{ unfold applyOrderAttribute in H. rewrite Hargs in H.
      rewrite (bind_Thrown _ _ _ _ _ H0) in H. discriminate H. }
  pose proof (Hkeep a1 (or_intror (or_introl eq_refl)) evA) as K1.
  destruct (node_evaluate a1 evA) as [[s | e] evB] eqn:H1.
  2:{ unfold applyOrderAttribute in H. rewrite Hargs in H.
      rewrite (bind_Normal _ _ _ _ _ H0), (bind_Thrown _ _ _ _ _ H1) in H.
      discriminate H. }
  cbn [snd] in K0, K1.
  assert (Hflag : readOrderIsReversed evB = readOrderIsReversed ev) by congruence.
  rewrite (applyOrderAttribute_two a0 a1 attr bp _ ev d s evA evB Hargs H0 H1) in H.
  destruct d as [direction |]; [| discriminate H].
  exists direction, s, evB.
  split; [exists evA; split; [reflexivity | exact H1] |].
  cbn [orderOf] in H.
  assert (Hgen : forall order,
    shouldBeReversed order (getEndian bp) =
      xorb (toUnsigned direction =? 0) (Endian_eqb (getEndian bp) big) ->
    (size <- sizeOf s a1 ;;
     let reversed := shouldBeReversed order (getEndian bp) in
     if negb (Bool.eqb (readOrderIsReversed ev) reversed) then
       getBitwiseReadOffsetAndIncrement size ;;
       modify (setReadOrderReversed reversed) ;;
       ret (true, size)
     else ret (false, size)) evB = (Normal (rc, fs), ev1) ->
    readOrderIsReversed ev1 =
      xorb (toUnsigned direction =? 0) (Endian_eqb (getEndian bp) big) /\
    rc = negb (Bool.eqb (readOrderIsReversed ev) (readOrderIsReversed ev1))).
  { intros order Horder Hrun.
    apply bind_Normal_inv in Hrun. destruct Hrun as (size & evS & Hsize & Hrun).
    assert (evS = evB).
    { destruct s as [[v] |]; cbn [sizeOf toUnsigned] in Hsize; [| discriminate Hsize].
      destruct (v =? 0); [discriminate Hsize |]. now injection Hsize as _ <-. }
    subst evS. cbv zeta in Hrun. rewrite Horder in Hrun.
    destruct (Bool.eqb (readOrderIsReversed ev)
                (xorb (toUnsigned direction =? 0) (Endian_eqb (getEndian bp) big)))
      eqn:Hsame; cbn [negb] in Hrun.
    - cbv [ret] in Hrun. injection Hrun as <- _ <-.
      apply eqb_prop in Hsame. rewrite Hflag. split; [now symmetry |].
      now rewrite eqb_reflx.
    - cbv [bind getBitwiseReadOffsetAndIncrement modify ret] in Hrun.
      injection Hrun as <- _ <-.
      cbn [readOrderIsReversed setReadOrderReversed m_readOrderReversed].
      split; [reflexivity |].
      fold (readOrderIsReversed ev). now rewrite Hsame. }
  destruct (toUnsigned direction =? to_underlying MostToLeastSignificant) eqn:H0'.
  - cbn [to_underlying] in H0'. apply (Hgen MostToLeastSignificant); [| exact H].
    rewrite H0'. unfold shouldBeReversed. destruct (getEndian bp); reflexivity.
  - destruct (toUnsigned direction =? to_underlying LeastToMostSignificant) eqn:H1';
      [| discriminate H].
    cbn [to_underlying] in H0'. apply (Hgen LeastToMostSignificant); [| exact H].
    rewrite H0'. unfold shouldBeReversed. destruct (getEndian bp); reflexivity.
Qed.

(** X17: with an accepted order attribute whose arguments leave the
    reversed-flag alone, the flag in force when the entries are evaluated is
    decided by the direction and the endianness alone, whatever the flag was:
    reversed is (direction is MostToLeastSignificant) xor (the endianness is
    big). And the order counts as changed exactly when that differs from the
    flag the call found. *)
Theorem order_attribute_forces_read_order :
  forall self orderAttribute ev bp prev rc fs ev1,
    getAttributeByName "bitfield_order" self = Some orderAttribute ->
    (forall arg, In arg (getArguments orderAttribute) ->
                 keepsReversed (node_evaluate arg)) ->
    resolveOrder self ev = (Normal (bp, prev, rc, fs), ev1) ->
    exists direction sizeNode evB,
      argumentsEvaluateTo orderAttribute (updateRuntime (bitfield_id self) ev)
        (ASTNodeLiteral direction) sizeNode evB /\
      readOrderIsReversed ev1 =
        xorb (toUnsigned direction =? 0) (Endian_eqb (m_defaultEndian ev) big) /\
      rc = negb (Bool.eqb (readOrderIsReversed ev) (readOrderIsReversed ev1)).
Proof.
  intros self attr ev bp prev rc fs ev1 Hattr Hkeep Hres.
  apply resolveOrder_Normal_inv in Hres. destruct Hres as (_ & _ & _ & Horder).
  rewrite Hattr in Horder.
  exact (applyOrderAttribute_Normal_flag attr (freshPattern ev)
           (updateRuntime (bitfield_id self) ev) rc fs ev1 Hkeep Horder).
Qed.

Lemma order_attribute_forces_read_order_witness :
  exists direction sizeNode evB,
    argumentsEvaluateTo (orderAttribute 0 16) (updateRuntime 1 freshEvaluator)
      (ASTNodeLiteral direction) sizeNode evB /\
    readOrderIsReversed (snd (resolveOrder reversedBitfield freshEvaluator)) =
      xorb (toUnsigned direction =? 0) (Endian_eqb little big) /\
    true = negb (Bool.eqb false
                   (readOrderIsReversed
                      (snd (resolveOrder reversedBitfield freshEvaluator)))).
Proof.
  refine (order_attribute_forces_read_order reversedBitfield (orderAttribute 0 16)
            freshEvaluator (freshPattern freshEvaluator) false true 16
            (snd (resolveOrder reversedBitfield freshEvaluator)) _ _ _).
  - reflexivity.
  - intros arg [<- | [<- | []]] ev; reflexivity.
  - reflexivity.
Defined.

(** ** The pattern handed to the attribute pipeline *)

(** The loop changes nothing of the pattern but its size. *)
Lemma fieldLoop_header fixedSize initialPosition :
  forall entries bp pp ev bp2 pp2 ev2,
    fieldLoop fixedSize initialPosition entries bp pp ev = (Normal (bp2, pp2), ev2) ->
    bp2 = setBitSize (bf_bitSize bp2) bp.
Proof.
  induction entries as [| entry rest IH]; intros bp pp ev bp2 pp2 ev2 Hloop.
  - cbn in Hloop. injection Hloop as <- <- <-. now destruct bp.
  - cbn [fieldLoop] in Hloop.
    apply bind_Normal_inv in Hloop. destruct Hloop as (ps & ev1 & Hentry & Hloop).
    apply bind_Normal_inv in Hloop. destruct Hloop as (bp1 & ev1' & Hsize & Hloop).
    destruct (exceeds fixedSize initialPosition (getBitwiseReadOffset ev1)) eqn:Hfits.
    { rewrite (setSize_exceeds _ _ _ _ _ Hfits) in Hsize. discriminate Hsize. }
    rewrite (setSize_fits _ _ _ _ _ Hfits) in Hsize. injection Hsize as <- <-.
    unfold bind at 1, gets at 1 in Hloop.
    destruct (getCurrentArrayIndex ev1).
    + apply IH in Hloop. rewrite Hloop. reflexivity.
    + unfold bind at 1, gets at 1 in Hloop.
      destruct (getCurrentControlFlowStatement ev1).
      * apply IH in Hloop. rewrite Hloop. reflexivity.
      * cbv [bind modify ret] in Hloop. injection Hloop as <- <- <-. reflexivity.
      * cbv [bind modify ret] in Hloop. injection Hloop as <- <- <-. reflexivity.
      * cbv [ret] in Hloop. injection Hloop as <- <- <-. reflexivity.
Qed.

(** X18: a call that returns yields exactly one pattern, the one the
    attribute pipeline made of the assembled bitfield pattern. That pattern
    starts at the cursor the call found, also when a window was reserved
    before the entries; it carries the section identifier and the default
    endianness the call found, has no parent yet, and records as its
    reversed-flag the flag in force when the loop was left. *)
Theorem call_yields_one_bitfield_pattern :
  forall applyTypeAttributes self ev ps ev',
    createPatterns applyTypeAttributes self ev = (Normal ps, ev') ->
    exists bf input evIn evOut,
      ps = [PatternBitfield bf] /\
      applyTypeAttributes self input evIn = (Normal bf, evOut) /\
      bf_offset input = getBitwiseReadOffset ev /\
      bf_section input = getSectionId ev /\
      bf_endian input = m_defaultEndian ev /\
      bf_parent input = None /\
      bf_reversed input = readOrderIsReversed evIn.
Proof.
  intros apply self ev ps ev' Hcall.
  apply createPatterns_Normal_inv in Hcall.
  destruct Hcall as (bp & prev & rc & fs & ev1 & bp2 & pp & ev2 & bf & ev3
                     & Hres & Hloop & Happly & -> & _).
  exists bf, (assembled bp2 pp ev2), (rewound rc (getBitwiseReadOffset ev1) ev2), ev3.
  split; [reflexivity |]. split; [exact Happly |].
  apply resolveOrder_Normal_inv in Hres. destruct Hres as (_ & -> & _).
  rewrite (fieldLoop_header _ _ _ _ _ _ _ _ _ Hloop).
  repeat split. destruct rc; reflexivity.
Qed.

Lemma call_yields_one_bitfield_pattern_witness :
  exists bf input evIn evOut,
    [PatternBitfield
       (mkBitfield (mkOffset 0 0) 16 0 true little
          [PatternBitfieldField "a" 4 false (Some (mkOffset 0 0))] None)]
      = [PatternBitfield bf] /\
    noTypeAttributes reversedBitfield input evIn = (Normal bf, evOut) /\
    bf_offset input = getBitwiseReadOffset freshEvaluator /\
    bf_section input = getSectionId freshEvaluator /\
    bf_endian input = m_defaultEndian freshEvaluator /\
    bf_parent input = None /\
    bf_reversed input = readOrderIsReversed evIn.
Proof.
  refine (call_yields_one_bitfield_pattern noTypeAttributes reversedBitfield
            freshEvaluator
            [PatternBitfield
               (mkBitfield (mkOffset 0 0) 16 0 true little
                  [PatternBitfieldField "a" 4 false (Some (mkOffset 0 0))] None)]
            (snd (createPatterns noTypeAttributes reversedBitfield freshEvaluator))
            _).
  reflexivity.
Defined.

(** ** The cursor when the read order did not change *)

(** X19: when the read order did not change (no order attribute, or one
    asking for the order already in force), the call does not move the cursor
    itself: no window is reserved, and a call that returns leaves the cursor
    where the loop left it. *)
Theorem cursor_left_by_entries_without_change :
  forall applyTypeAttributes self ev bp prev fs ev1 ps ev',
    keepsCursor applyTypeAttributes self ->
    resolveOrder self ev = (Normal (bp, prev, false, fs), ev1) ->
    createPatterns applyTypeAttributes self ev = (Normal ps, ev') ->
    (match getAttributeByName "bitfield_order" self with
     | Some orderAttribute =>
         exists directionNode sizeNode,
           argumentsEvaluateTo orderAttribute (updateRuntime (bitfield_id self) ev)
             directionNode sizeNode ev1
     | None => getBitwiseReadOffset ev1 = getBitwiseReadOffset ev
     end) /\
    exists bp2 pp ev2,
      fieldLoop fs (getBitwiseReadOffset ev1) (m_entries self) bp []
        (pushScope (bf_offset bp) ev1) = (Normal (bp2, pp), ev2) /\
      getBitwiseReadOffset ev' = getBitwiseReadOffset ev2.
Proof.
  intros apply self ev bp prev fs ev1 ps ev' Hcursor Hres Hcall.
  split.
  - apply resolveOrder_Normal_inv in Hres. destruct Hres as (_ & _ & _ & Horder).
    destruct (getAttributeByName "bitfield_order" self) as [attr |].
    + apply applyOrderAttribute_Normal_inv in Horder.
      destruct Horder as (d & evB & _ & Hargs & _ & _ & ->).
      now exists d, (ASTNodeLiteral (mkLiteral fs)).
    + destruct Horder as (_ & _ & ->). reflexivity.
  - apply createPatterns_Normal_inv in Hcall.
    destruct Hcall as (bp' & prev' & rc' & fs' & ev1' & bp2 & pp & ev2 & bf & ev3
                       & Hres' & Hloop & Happly & _ & ->).
    rewrite Hres in Hres'. injection Hres' as <- <- <- <- <-.
    exists bp2, pp, ev2. split; [exact Hloop |].
    pose proof (Hcursor (assembled bp2 pp ev2)
                  (rewound false (getBitwiseReadOffset ev1) ev2)) as Hc.
    rewrite Happly in Hc. exact Hc.
Qed.

Lemma cursor_left_by_entries_without_change_witness :
  exists bp2 pp ev2,
    fieldLoop 0 (mkOffset 0 0) (m_entries paddedBitfield) (freshPattern freshEvaluator)
      [] (pushScope (mkOffset 0 0) (updateRuntime 1 freshEvaluator))
      = (Normal (bp2, pp), ev2) /\
    getBitwiseReadOffset
      (snd (createPatterns noTypeAttributes paddedBitfield freshEvaluator))
      = getBitwiseReadOffset ev2.
Proof.
  refine (proj2 (cursor_left_by_entries_without_change noTypeAttributes paddedBitfield
                   freshEvaluator (freshPattern freshEvaluator) false 0
                   (updateRuntime 1 freshEvaluator)
                   [PatternBitfield
                      (mkBitfield (mkOffset 0 0) 8 0 false little
                         [PatternBitfieldField "named" 4 false (Some (mkOffset 0 0))]
                         None)]
                   (snd (createPatterns noTypeAttributes paddedBitfield freshEvaluator))
                   _ _ _)).
  - intros pattern ev. reflexivity.
  - reflexivity.
  - reflexivity.
Defined.

(** ** Building a declaration *)

Lemma addEntry_fold entries :
  forall self,
    getEntries (fold_left (fun declaration entry => addEntry entry declaration)
                  entries self) = (getEntries self ++ entries)%list /\
    m_attributes (fold_left (fun declaration entry => addEntry entry declaration)
                    entries self) = m_attributes self.
Proof.
  induction entries as [| entry rest IH]; intros self; cbn [fold_left].
  - split; [now rewrite app_nil_r | reflexivity].
  - destruct (IH (addEntry entry self)) as [Hentries Hattributes].
    split; [| exact Hattributes].
    rewrite Hentries. unfold getEntries, addEntry. cbn [m_entries].
    now rewrite <- app_assoc.
Qed.

(** X20: a declaration made by the default constructor and filled by
    [addEntry] holds exactly the entries added, in the order they were added,
    which is the order the loop evaluates them in; adding entries leaves the
    attributes alone. *)
Theorem entries_are_kept_in_order_added :
  forall id entries self,
    getEntries (fold_left (fun declaration entry => addEntry entry declaration)
                  entries (newASTNodeBitfield id)) = entries /\
    getEntries (fold_left (fun declaration entry => addEntry entry declaration)
                  entries self) = (getEntries self ++ entries)%list /\
    m_attributes (fold_left (fun declaration entry => addEntry entry declaration)
                    entries self) = m_attributes self.
Proof.
  intros id entries self.
  split; [exact (proj1 (addEntry_fold entries (newASTNodeBitfield id))) |].
  exact (addEntry_fold entries self).
Qed.
